(** * tfcloud-provider-push-action: the Terraform registry client (action/tfapi.go)

    A shallow embedding of [action/tfapi.go]: the request builder
    ([buildURL], [buildRequest]), the operation clients
    ([CreateProviderVersion], [CreateProviderVersionPlatform], [UploadFile])
    and the derivation of the uploads client ([copy], [UploadsClient]).

    Go strings and byte slices are byte sequences: both are [string] here.
    Objects reached through pointers ([*tfClientMiddleware], [*http.Client])
    live in an explicit store, so that sharing and fresh allocation are
    visible.  The fragments of the Go standard library the file calls are
    embedded in their own modules, ahead of the program. *)

From Stdlib Require Import ZArith Ascii.
From stdpp Require Import gmap strings list fin_maps sorting.

Local Open Scope Z_scope.

(** ** Fragments of the Go standard library *)

(** Bytes of a Go string, as numbers. *)
Definition byte_val (c : ascii) : Z := Z.of_N (N_of_ascii c).
Definition byte_chr (z : Z) : ascii := ascii_of_N (Z.to_N z).

Definition in_range (lo hi : Z) (z : Z) : bool := (lo <=? z) && (z <=? hi).

Definition is_digit (c : ascii) : bool := in_range 48 57 (byte_val c).
Definition is_upper (c : ascii) : bool := in_range 65 90 (byte_val c).
Definition is_lower (c : ascii) : bool := in_range 97 122 (byte_val c).
Definition is_alnum (c : ascii) : bool := is_digit c || is_upper c || is_lower c.

Fixpoint string_forallb (p : ascii → bool) (s : string) : bool :=
  match s with
  | EmptyString => true
  | String c s' => p c && string_forallb p s'
  end.

Fixpoint string_concat_map (f : ascii → string) (s : string) : string :=
  match s with
  | EmptyString => ""
  | String c s' => f c +:+ string_concat_map f s'
  end.

(** [s[:n]]. *)
Fixpoint string_take (n : nat) (s : string) : string :=
  match n, s with
  | S k, String c s' => String c (string_take k s')
  | _, _ => ""
  end.

Definition hex_digit (digits : string) (z : Z) : string :=
  match String.get (Z.to_nat z) digits with
  | Some c => String c ""
  | None => ""
  end.

Module strings.

(** [strings.TrimLeft(s, string(c))] for a one-byte cutset. *)
Fixpoint trimLeftByte (s : string) (c : ascii) : string :=
  match s with
  | EmptyString => ""
  | String a s' => if decide (a = c) then trimLeftByte s' c else s
  end.

(** [strings.TrimRight(s, string(c))] for a one-byte cutset. *)
Fixpoint trimRightByte (s : string) (c : ascii) : string :=
  match s with
  | EmptyString => ""
  | String a s' =>
      match trimRightByte s' c with
      | EmptyString => if decide (a = c) then "" else String a ""
      | t => String a t
      end
  end.

(** [strings.Trim(s, cutset)] with a cutset of one byte removes the byte
    from both ends of [s]. *)
Definition Trim (s : string) (c : ascii) : string :=
  trimLeftByte (trimRightByte s c) c.

(** [strings.Join(elems, sep)]. *)
Fixpoint Join (elems : list string) (sep : string) : string :=
  match elems with
  | [] => ""
  | [e] => e
  | e :: rest => e +:+ sep +:+ Join rest sep
  end.

End strings.

Module url.

Definition upperhex : string := "0123456789ABCDEF".

(** [shouldEscape(c, encodeQueryComponent)]: letters, digits and
    [-_.~] stay; every other byte is escaped. *)
Definition shouldEscape (c : ascii) : bool :=
  negb (is_alnum c
        || bool_decide (c = "-"%char) || bool_decide (c = "_"%char)
        || bool_decide (c = "."%char) || bool_decide (c = "~"%char)).

Definition escapeByte (c : ascii) : string :=
  if bool_decide (c = " "%char) then "+"
  else if shouldEscape c then
    "%" +:+ hex_digit upperhex (Z.shiftr (byte_val c) 4)
        +:+ hex_digit upperhex (Z.land (byte_val c) 15)
  else String c "".

(** [url.QueryEscape]. *)
Definition QueryEscape (s : string) : string := string_concat_map escapeByte s.

(** [url.Values] is [map[string][]string]. *)
Abbreviation Values := (gmap string (list string)).

Definition encodeKey (k : string) (vs : list string) : list string :=
  (λ v, QueryEscape k +:+ "=" +:+ QueryEscape v) <$> vs.

(** [Values.Encode]: keys in sorted order, one [key=value] per value,
    joined by [&]. *)
Definition Encode (v : Values) : string :=
  let keys := merge_sort String.le (fst <$> map_to_list v) in
  strings.Join (keys ≫= (λ k, encodeKey k (default [] (v !! k)))) "&".

End url.

Module utf8.

Definition RuneError : Z := 0xFFFD.

(** The table [first] with [acceptRanges]: for a leading byte, the size
    of the encoding and the range accepted for the second byte. *)
Definition first (s0 : Z) : option (nat * Z * Z) :=
  if in_range 0xC2 0xDF s0 then Some (2%nat, 0x80, 0xBF)
  else if s0 =? 0xE0 then Some (3%nat, 0xA0, 0xBF)
  else if in_range 0xE1 0xEC s0 then Some (3%nat, 0x80, 0xBF)
  else if s0 =? 0xED then Some (3%nat, 0x80, 0x9F)
  else if in_range 0xEE 0xEF s0 then Some (3%nat, 0x80, 0xBF)
  else if s0 =? 0xF0 then Some (4%nat, 0x90, 0xBF)
  else if in_range 0xF1 0xF3 s0 then Some (4%nat, 0x80, 0xBF)
  else if s0 =? 0xF4 then Some (4%nat, 0x80, 0x8F)
  else None.

Definition cont (c : ascii) : bool := in_range 0x80 0xBF (byte_val c).
Definition low6 (c : ascii) : Z := Z.land (byte_val c) 0x3F.

(** [utf8.DecodeRuneInString]: the rune and its width in bytes. *)
Definition DecodeRuneInString (s : string) : Z * nat :=
  match s with
  | EmptyString => (RuneError, 0%nat)
  | String c0 t =>
      let s0 := byte_val c0 in
      if s0 <? 0x80 then (s0, 1%nat)
      else match first s0 with
      | None => (RuneError, 1%nat)
      | Some (sz, lo, hi) =>
          if (String.length s <? sz)%nat then (RuneError, 1%nat)
          else match t with
          | EmptyString => (RuneError, 1%nat)
          | String c1 t1 =>
              if negb (in_range lo hi (byte_val c1)) then (RuneError, 1%nat)
              else if (sz <=? 2)%nat then
                (Z.lor (Z.shiftl (Z.land s0 0x1F) 6) (low6 c1), 2%nat)
              else match t1 with
              | EmptyString => (RuneError, 1%nat)
              | String c2 t2 =>
                  if negb (cont c2) then (RuneError, 1%nat)
                  else if (sz <=? 3)%nat then
                    (Z.lor (Z.lor (Z.shiftl (Z.land s0 0x0F) 12)
                                  (Z.shiftl (low6 c1) 6)) (low6 c2), 3%nat)
                  else match t2 with
                  | EmptyString => (RuneError, 1%nat)
                  | String c3 _ =>
                      if negb (cont c3) then (RuneError, 1%nat)
                      else
                        (Z.lor (Z.lor (Z.lor (Z.shiftl (Z.land s0 0x07) 18)
                                             (Z.shiftl (low6 c1) 12))
                                      (Z.shiftl (low6 c2) 6)) (low6 c3), 4%nat)
                  end
              end
          end
      end
  end.

(** [utf8.ValidRune]. *)
Definition ValidRune (r : Z) : bool :=
  in_range 0 0xD7FF r || in_range 0xE000 0x10FFFF r.

End utf8.

Module strconv.
Section quote.

(** [unicode.IsPrint] decides runes above Latin-1 from the Unicode
    tables, which are taken as given. *)
Variable unicode_tables : Z → bool.

Definition lowerhex : string := "0123456789abcdef".

Definition dquote : ascii := "034"%char.
Definition backslash : ascii := "092"%char.
Definition esc (s : string) : string := String backslash s.

Definition IsPrint (r : Z) : bool :=
  if r <=? 0xFF then
    if in_range 0x20 0x7E r then true
    else if in_range 0xA1 0xFF r then negb (r =? 0xAD)
    else false
  else unicode_tables r.

Definition hex_nibbles (r : Z) (shifts : list Z) : string :=
  strings.Join ((λ s, hex_digit lowerhex (Z.land (Z.shiftr r s) 0xF)) <$> shifts) "".

(** [appendEscapedRune] with the double quote as the quote byte and both
    flags false; [enc] is the UTF-8 encoding of [r]. *)
Definition appendEscapedRune (r : Z) (enc : string) : string :=
  if (r =? 34) || (r =? 92) then String backslash (String (byte_chr r) "")
  else if IsPrint r then enc
  else if r =? 7 then esc "a"
  else if r =? 8 then esc "b"
  else if r =? 12 then esc "f"
  else if r =? 10 then esc "n"
  else if r =? 13 then esc "r"
  else if r =? 9 then esc "t"
  else if r =? 11 then esc "v"
  else if (r <? 32) || (r =? 0x7F) then esc "x" +:+ hex_nibbles r [4; 0]
  else if negb (utf8.ValidRune r) then esc "u" +:+ hex_nibbles utf8.RuneError [12; 8; 4; 0]
  else if r <? 0x10000 then esc "u" +:+ hex_nibbles r [12; 8; 4; 0]
  else esc "U" +:+ hex_nibbles r [28; 24; 20; 16; 12; 8; 4; 0].

(** The loop of [appendQuotedWith]; [skip] counts the bytes of the
    current rune still to step over. *)
Fixpoint quoteRunes (skip : nat) (s : string) : string :=
  match s with
  | EmptyString => ""
  | String c t =>
      match skip with
      | S k => quoteRunes k t
      | O =>
          let '(r, width) := utf8.DecodeRuneInString s in
          (if (width =? 1)%nat && (r =? utf8.RuneError)
           then esc "x" +:+ hex_nibbles (byte_val c) [4; 0]
           else appendEscapedRune r (string_take width s))
          +:+ quoteRunes (width - 1) t
      end
  end.

(** [strconv.Quote], which is what the verb [%q] of [fmt] prints for a
    string. *)
Definition Quote (s : string) : string :=
  String dquote (quoteRunes 0 s) +:+ String dquote "".

End quote.
End strconv.

Module textproto.

(** [validHeaderFieldByte]: the token bytes of RFC 7230. *)
Definition validHeaderFieldByte (c : ascii) : bool :=
  is_alnum c || bool_decide (c ∈ String.list_ascii_of_string "!#$%&'*+-.^_`|~").

Fixpoint canonical (upper : bool) (s : string) : string :=
  match s with
  | EmptyString => ""
  | String c t =>
      let c' :=
        if upper && is_lower c then byte_chr (byte_val c - 32)
        else if negb upper && is_upper c then byte_chr (byte_val c + 32)
        else c in
      String c' (canonical (bool_decide (c' = "-"%char)) t)
  end.

(** [textproto.CanonicalMIMEHeaderKey]: a key made of token bytes gets an
    upper-case first letter and an upper-case letter after each hyphen;
    any other key is returned as it is. *)
Definition CanonicalMIMEHeaderKey (s : string) : string :=
  if string_forallb validHeaderFieldByte s then canonical true s else s.

End textproto.

(** Pointers are locations of a store. *)
Abbreviation loc := nat.

(** [context.Context]: [None] is the nil interface. *)
Abbreviation Context := (option nat).

Module http.

Definition MethodPost : string := "POST".
Definition MethodPut : string := "PUT".
Definition StatusOK : Z := 200.
Definition StatusCreated : Z := 201.

(** [http.Header] is [map[string][]string]. *)
Abbreviation Header := (gmap string (list string)).

(** [Header.Set]. *)
Definition Header_Set (h : Header) (key value : string) : Header :=
  <[textproto.CanonicalMIMEHeaderKey key := [value]]> h.

(** [http.Request], with the fields this program reads or writes.
    [URL] is the text [url.Parse] accepted; [Body] is the payload the
    request will send, [None] when there is none. *)
Record Request := mkRequest {
  Ctx : Context;
  Method : string;
  URL : string;
  Header_ : Header;
  Body : option string;
}.

Definition with_Header (r : Request) (h : Header) : Request :=
  mkRequest (Ctx r) (Method r) (URL r) h (Body r).

(** [req.Header.Set(key, value)]. *)
Definition Request_Header_Set (r : Request) (key value : string) : Request :=
  with_Header r (Header_Set (Header_ r) key value).

(** [http.Response]: the status code and the body, an [io.ReadCloser]
    that lives in the store. *)
Record Response := mkResponse {
  StatusCode : Z;
  RespBody : loc;
}.

(** The errors [http.NewRequestWithContext] returns. *)
Inductive RequestError :=
| InvalidMethod (method : string)
| NilContext
| ParseError (cause : string).

(** [validMethod]: a non-empty token. *)
Definition validMethod (method : string) : bool :=
  negb (bool_decide (method = "")) &&
  string_forallb textproto.validHeaderFieldByte method.

(** The configuration of an [http.Client]. *)
Inductive RoundTripper := DefaultPooledTransport | OtherTransport (id : nat).

Record Client := mkClient {
  Transport : RoundTripper;
  Timeout : Z;
}.

End http.

Module cleanhttp.

(** The value [cleanhttp.DefaultClient] builds: a pooled transport of its
    own and no timeout. *)
Definition DefaultClientValue : http.Client :=
  http.mkClient http.DefaultPooledTransport 0.

End cleanhttp.

(** An [io.ReadCloser] as a test double sees it: the bytes not read yet and
    the number of calls of [Close]. *)
Record ReadCloser := mkReadCloser {
  unread : string;
  close_calls : nat;
}.

(** ** The environment of the program *)

(** What [http.Client.Do] comes back with: a response (status code and
    body bytes) and no error; an error and no response; or, when the
    redirect policy fails, both, the body being closed already. *)
Inductive Reply :=
| Responded (code : Z) (content : string)
| Refused (cause : string)
| RedirectFailed (code : Z) (content : string) (cause : string).

(** What a library call that can fail returns: the value, or the text of
    the error. *)
Inductive outcome (A : Type) :=
| Done (a : A)
| Failed (msg : string).
Arguments Done {A} a.
Arguments Failed {A} msg.

(** The parts of the Go runtime and of the outside world the program relies
    on and that are not embedded here. *)
Class GoRuntime := {
  (** Go values that are neither an [io.Reader] nor a [[]byte] *)
  Value : Type;
  (** [json.Marshal] *)
  json_Marshal : Value → outcome string;
  (** [url.Parse]: the text of the error of a URL that does not parse *)
  url_Parse_error : string → option string;
  (** the tables of [unicode.IsPrint] above Latin-1 *)
  unicode_tables : Z → bool;
  (** the network, asked through a client after the requests sent so far *)
  RoundTrip : list (loc * http.Request) → loc → http.Request → Reply;
  (** [json.Valid]; no document is empty *)
  json_Valid : string → bool;
  json_Valid_empty : json_Valid "" = false;
  (** decoding of a well-formed document as the error object of the API *)
  decode_errors : string → option (list string);
  (** the response records: the zero value and the decoding of a
      well-formed document *)
  TFCreateProviderVersionResponse : Type;
  version_zero : TFCreateProviderVersionResponse;
  decode_version : string → outcome TFCreateProviderVersionResponse;
  TFCreateProviderVersionPlatformResponse : Type;
  platform_zero : TFCreateProviderVersionPlatformResponse;
  decode_platform : string → outcome TFCreateProviderVersionPlatformResponse;
}.

(** ** Data model *)

(** Modelled from the spec: [Config] is declared outside [tfapi.go], which
    reads its fields [TFAddress] and [TFToken]: the registry address and
    the bearer token of the client configuration of the spec. *)
Record Config := mkConfig {
  TFAddress : string;
  TFToken : string;
}.

Record tfClientMiddleware := mkMiddleware {
  addr : string;
  bearerToken : string;
  hc : option loc;  (** [*http.Client]; [None] is nil *)
}.

(** [new(tfClientMiddleware)]: the zero value. *)
Definition zeroMiddleware : tfClientMiddleware := mkMiddleware "" "" None.

Definition set_addr (v : tfClientMiddleware) (a : string) :=
  mkMiddleware a (bearerToken v) (hc v).
Definition set_bearerToken (v : tfClientMiddleware) (t : string) :=
  mkMiddleware (addr v) t (hc v).
Definition set_hc (v : tfClientMiddleware) (c : option loc) :=
  mkMiddleware (addr v) (bearerToken v) c.

(** The three client handles hold one pointer each and are never written
    after construction: they are values here. *)
Record TFClient := mkTFClient { m : loc }.
Record TFProviderClient := mkTFProviderClient { pm : loc }.
Record TFUploadsClient := mkTFUploadsClient { um : loc }.

(** A value passed as [interface{}] to [buildRequest], by what the type
    switch can tell apart. *)
Inductive body `{GoRuntime} :=
| bodyNil                         (** the nil interface *)
| bodyReader (content : string)   (** an [io.Reader] and the bytes it yields *)
| bodyBytes (b : string)          (** a [[]byte] *)
| bodyOther (v : Value).          (** any other value *)

(** Modelled from the spec: [TFFileUploadRequest] is declared outside
    [tfapi.go], which reads these four fields: the destination, the file
    content, the content type and the filename of the spec.  [File]
    reaches [buildRequest] as an [interface{}]. *)
Record TFFileUploadRequest `{GoRuntime} := mkUpload {
  Destination : string;
  File : body;
  ContentType : string;
  Filename : string;
}.

Inductive error :=
| MarshalError (cause : string)
    (** [fmt.Errorf] with format [error marshalling body: %w] *)
| RequestError (e : http.RequestError)
| TransportError (method url : string) (cause : string)
| APIError (status : Z) (details : list string)
| StatusMismatchError (status : Z) (method url : string)
| DecodeError (cause : string).

Inductive result (A : Type) :=
| Ok (a : A)
| Err (e : error).
Arguments Ok {A} a.
Arguments Err {A} e.

(** ** The store and the monad of the program *)

Record World := mkWorld {
  clients : gmap loc http.Client;
  middlewares : gmap loc tfClientMiddleware;
  bodies : gmap loc ReadCloser;
  wire : list (loc * http.Request);  (** requests sent, latest first *)
}.

Definition emptyWorld : World := mkWorld ∅ ∅ ∅ [].

(** A computation either panics ([None]: a nil or dangling pointer is
    dereferenced) or returns a value and the next store. *)
Definition M (A : Type) : Type := World → option (A * World).

Global Instance M_ret : MRet M := λ A a w, Some (a, w).
Global Instance M_bind : MBind M := λ A B f c w,
  match c w with
  | Some (a, w') => f a w'
  | None => None
  end.

Definition panic {A} : M A := λ _, None.
Definition get_world : M World := λ w, Some (w, w).

Definition set_clients (f : gmap loc http.Client → gmap loc http.Client) : M unit :=
  λ w, Some ((), mkWorld (f (clients w)) (middlewares w) (bodies w) (wire w)).
Definition set_middlewares
    (f : gmap loc tfClientMiddleware → gmap loc tfClientMiddleware) : M unit :=
  λ w, Some ((), mkWorld (clients w) (f (middlewares w)) (bodies w) (wire w)).
Definition set_bodies (f : gmap loc ReadCloser → gmap loc ReadCloser) : M unit :=
  λ w, Some ((), mkWorld (clients w) (middlewares w) (f (bodies w)) (wire w)).
Definition set_wire
    (f : list (loc * http.Request) → list (loc * http.Request)) : M unit :=
  λ w, Some ((), mkWorld (clients w) (middlewares w) (bodies w) (f (wire w))).

(** [new(tfClientMiddleware)]. *)
Definition new_middleware : M loc :=
  w ← get_world;
  let l := fresh (dom (middlewares w)) in
  set_middlewares (insert l zeroMiddleware);; mret l.

(** [*tm]. *)
Definition load (tm : loc) : M tfClientMiddleware :=
  w ← get_world;
  match middlewares w !! tm with
  | Some v => mret v
  | None => panic
  end.

(** [*tm = v], and the field assignments [tm.f = x]. *)
Definition store (tm : loc) (v : tfClientMiddleware) : M unit :=
  _ ← load tm; set_middlewares (insert tm v).
Definition update (tm : loc) (f : tfClientMiddleware → tfClientMiddleware) : M unit :=
  v ← load tm; set_middlewares (insert tm (f v)).

(** [cleanhttp.DefaultClient()]: a new client object on each call. *)
Definition DefaultClient : M loc :=
  w ← get_world;
  let l := fresh (dom (clients w)) in
  set_clients (insert l cleanhttp.DefaultClientValue);; mret l.

(** ** The program *)

Definition headerAccept : string := "Accept".
Definition headerAuthorization : string := "Authorization".
Definition headerContentDisposition : string := "Content-Disposition".
Definition headerContentType : string := "Content-Type".

Definition applicationVNDAPIJSON : string := "application/vnd.api+json".
Definition applicationJSON : string := "application/json".
Definition binaryOctetStream : string := "binary/octet-stream".

Definition pathAPI : string := "api".
Definition pathOrganizations : string := "organizations".
Definition pathPlatforms : string := "platforms".
Definition pathRegistryProviders : string := "registry-providers".
Definition pathVersions : string := "versions".
Definition pathV2 : string := "v2".

Section program.
Context `{GoRuntime}.

(** [fmt.Sprintf(attachmentFilenameFmt, filename)], the format being
    [attachment; filename=%q]. *)
Definition attachmentFilenameFmt (filename : string) : string :=
  "attachment; filename=" +:+ strconv.Quote unicode_tables filename.

(** [http.NewRequestWithContext]: an empty method means GET; the method
    must be a token, the context not nil and the URL must parse.  The new
    request has no header. *)
Definition NewRequestWithContext
    (ctx : Context) (method url : string) (body : option string) : result http.Request :=
  let method := if decide (method = "") then "GET" else method in
  if negb (http.validMethod method) then Err (RequestError (http.InvalidMethod method))
  else match ctx with
  | None => Err (RequestError http.NilContext)
  | Some _ =>
      match url_Parse_error url with
      | Some e => Err (RequestError (http.ParseError e))
      | None => Ok (http.mkRequest ctx method url ∅ body)
      end
  end.

(** [http.Client.Do] on the client at [c]: the request goes on the wire and
    the network replies; the body of a response is a new [io.ReadCloser],
    unread and open (closed once already when the redirect policy
    failed). *)
Definition Client_Do (c : loc) (r : http.Request) : M (option http.Response * option string) :=
  w ← get_world;
  match clients w !! c with
  | None => panic
  | Some _ =>
      let l := fresh (dom (bodies w)) in
      set_wire (cons (c, r));;
      match RoundTrip (wire w) c r with
      | Responded code content =>
          set_bodies (insert l (mkReadCloser content 0));;
          mret (Some (http.mkResponse code l), None)
      | Refused cause => mret (None, Some cause)
      | RedirectFailed code content cause =>
          set_bodies (insert l (mkReadCloser content 1));;
          mret (Some (http.mkResponse code l), Some cause)
      end
  end.

(** [io.ReadAll(body)] and [body.Close()]. *)
Definition ReadAll (l : loc) : M string :=
  w ← get_world;
  match bodies w !! l with
  | None => panic
  | Some b => set_bodies (insert l (mkReadCloser "" (close_calls b)));; mret (unread b)
  end.

Definition Close (l : loc) : M unit :=
  w ← get_world;
  match bodies w !! l with
  | None => panic
  | Some b => set_bodies (insert l (mkReadCloser (unread b) (S (close_calls b))))
  end.

(** [json.Unmarshal] checks that the document is well formed before it
    decodes it. *)
Definition json_Unmarshal_errors (data : string) : option (list string) :=
  if json_Valid data then decode_errors data else None.

Definition json_Unmarshal {T} (decode : string → outcome T) (data : string) : outcome T :=
  if json_Valid data then decode data else Failed "invalid JSON".

(** *** tfClientMiddleware *)

Definition newTFClientMiddleware (cfg : Config) : M (result loc) :=
  tm ← new_middleware;
  update tm (λ v, set_addr v (strings.Trim (TFAddress cfg) "/"));;
  update tm (λ v, set_bearerToken v (TFToken cfg));;
  c ← DefaultClient;
  update tm (λ v, set_hc v (Some c));;
  mret (Ok tm).

Definition copy (tm : loc) (hc' : option loc) : M loc :=
  tm2 ← new_middleware;
  v ← load tm;
  store tm2 v;;
  update tm2 (λ v2, set_hc v2 hc');;
  mret tm2.

Definition buildURL (tm : loc) (route : string) : M string :=
  v ← load tm;
  mret (addr v +:+ "/" +:+ route).

Definition buildRequest (tm : loc) (ctx : Context) (method routePath : string)
    (query : url.Values) (b : body) : M (result http.Request) :=
  let bodyRdr : outcome (option string) :=
    match b with
    | bodyNil => Done None
    | bodyReader content => Done (Some content)
    | bodyBytes bs => Done (Some bs)
    | bodyOther v =>
        match json_Marshal v with
        | Failed err => Failed err
        | Done enc => Done (Some enc)
        end
    end in
  match bodyRdr with
  | Failed err => mret (Err (MarshalError err))
  | Done bodyRdr =>
      compiledURL ← buildURL tm routePath;
      let compiledURL :=
        if decide (0 < size query)%nat
        then compiledURL +:+ "?" +:+ url.Encode query
        else compiledURL in
      mret (NewRequestWithContext ctx method compiledURL bodyRdr)
  end.

Definition do (tm : loc) (r : http.Request) : M (option http.Response * option string) :=
  v ← load tm;
  match hc v with
  | None => panic
  | Some c => Client_Do c r
  end.

(** *** TFClient *)

Definition NewTFClient (cfg : Config) : M (result TFClient) :=
  r ← newTFClientMiddleware cfg;
  match r with
  | Err e => mret (Err e)
  | Ok tm => mret (Ok (mkTFClient tm))
  end.

Definition ProviderClient (tc : TFClient) : TFProviderClient :=
  mkTFProviderClient (m tc).

Definition UploadsClient (tc : TFClient) : M TFUploadsClient :=
  c ← DefaultClient;
  tm2 ← copy (m tc) (Some c);
  mret (mkTFUploadsClient tm2).

(** *** Helpers declared outside [tfapi.go] *)

(** Modelled from the spec: [buildRoute] is called by [tfapi.go] and
    declared elsewhere.  The spec has route paths built by joining the
    literal path segments with a slash, in the order given. *)
Definition buildRoute (segments : list string) : string :=
  strings.Join segments "/".

(** Modelled from the spec: [setBearerToken] is called by [tfapi.go] and
    declared elsewhere.  The spec has the requests of the metadata client
    carry the header [Authorization: Bearer <token>]. *)
Definition setBearerToken (req : http.Request) (token : string) : http.Request :=
  http.Request_Header_Set req headerAuthorization ("Bearer " +:+ token).

(** Modelled from the spec: the branches of [handleResponse] on a response
    whose body has been read, by section 4.3 of the spec.  A status other
    than the expected one gives the structured API error when the body
    decodes as the error object of the API and the generic status-mismatch
    error when it does not; with the expected status the body is decoded
    into [out] when [out] is not nil, and a failure there is returned as
    it is; with [out] nil nothing is decoded.  [out] is the decoder of the
    pointed-to type; the result holds the decoded value. *)
Definition classify {T} (req : http.Request) (status : Z) (content : string)
    (out : option (string → outcome T)) (expectedStatus : Z) : result (option T) :=
  if decide (status ≠ expectedStatus) then
    match json_Unmarshal_errors content with
    | Some details => Err (APIError status details)
    | None => Err (StatusMismatchError status (http.Method req) (http.URL req))
    end
  else
    match out with
    | None => Ok None
    | Some decode =>
        match json_Unmarshal decode content with
        | Failed cause => Err (DecodeError cause)
        | Done v => Ok (Some v)
        end
    end.

(** Modelled from the spec: [handleResponse] is called by [tfapi.go] and
    declared elsewhere.  By section 4.3 of the spec: a transport error is
    wrapped with the method and URL of the request and returned at once,
    whether a response is there or not; otherwise the body is read to its
    end and closed, on every path, and the response is classified.  The
    spec leaves the call with neither error nor response open: a nil
    response is dereferenced there. *)
Definition handleResponse {T} (req : http.Request) (resp : option http.Response)
    (err : option string) (out : option (string → outcome T)) (expectedStatus : Z)
    : M (result (option T)) :=
  match err with
  | Some cause => mret (Err (TransportError (http.Method req) (http.URL req) cause))
  | None =>
      match resp with
      | None => panic
      | Some r =>
          content ← ReadAll (http.RespBody r);
          Close (http.RespBody r);;
          mret (classify req (http.StatusCode r) content out expectedStatus)
      end
  end.

(** *** TFProviderClient *)

(** The request records are declared outside [tfapi.go]; they reach
    [buildRequest] as [interface{}] values that are neither readers nor
    byte slices. *)
Definition CreateProviderVersion (tc : TFProviderClient) (ctx : Context)
    (orgName regName namespace provName : string) (data : Value)
    : M (result TFCreateProviderVersionResponse) :=
  let route := buildRoute
    [pathAPI; pathV2; pathOrganizations; orgName; pathRegistryProviders;
     regName; namespace; provName; pathVersions] in
  r ← buildRequest (pm tc) ctx http.MethodPost route ∅ (bodyOther data);
  match r with
  | Err e => mret (Err e)
  | Ok req =>
      v ← load (pm tc);
      let req := setBearerToken req (bearerToken v) in
      let req := http.Request_Header_Set req headerContentType applicationVNDAPIJSON in
      let req := http.Request_Header_Set req headerAccept applicationJSON in
      '(resp, err) ← do (pm tc) req;
      o ← handleResponse req resp err (Some decode_version) http.StatusCreated;
      match o with
      | Err e => mret (Err e)
      | Ok decoded => mret (Ok (default version_zero decoded))
      end
  end.

Definition CreateProviderVersionPlatform (tc : TFProviderClient) (ctx : Context)
    (orgName regName namespace provName provVersion : string) (data : Value)
    : M (result TFCreateProviderVersionPlatformResponse) :=
  let route := buildRoute
    [pathAPI; pathV2; pathOrganizations; orgName; pathRegistryProviders;
     regName; namespace; provName; pathVersions; provVersion; pathPlatforms] in
  r ← buildRequest (pm tc) ctx http.MethodPost route ∅ (bodyOther data);
  match r with
  | Err e => mret (Err e)
  | Ok req =>
      v ← load (pm tc);
      let req := setBearerToken req (bearerToken v) in
      let req := http.Request_Header_Set req headerContentType applicationVNDAPIJSON in
      let req := http.Request_Header_Set req headerAccept applicationJSON in
      '(resp, err) ← do (pm tc) req;
      o ← handleResponse req resp err (Some decode_platform) http.StatusCreated;
      match o with
      | Err e => mret (Err e)
      | Ok decoded => mret (Ok (default platform_zero decoded))
      end
  end.

(** *** TFUploadsClient *)

Definition UploadFile (tc : TFUploadsClient) (ctx : Context) (data : TFFileUploadRequest)
    : M (option error) :=
  r ← buildRequest (um tc) ctx http.MethodPut (Destination data) ∅ (File data);
  match r with
  | Err e => mret (Some e)
  | Ok req =>
      let req := http.Request_Header_Set req headerContentType (ContentType data) in
      let req := http.Request_Header_Set req headerContentDisposition
                   (attachmentFilenameFmt (Filename data)) in
      '(resp, err) ← do (um tc) req;
      o ← handleResponse (T:=unit) req resp err None http.StatusOK;
      match o with
      | Err e => mret (Some e)
      | Ok _ => mret None
      end
  end.

End program.

(** ** What the statements speak of *)

(** The spec's wording of the base address: the configured address with
    its trailing slashes removed. *)
Definition trim_trailing_slashes (s : string) : string :=
  strings.trimRightByte s "/".

(** The bytes [strconv.Quote] copies as they are: printable ASCII other
    than the double quote and the backslash. *)
Definition plain_byte (c : ascii) : bool :=
  in_range 0x20 0x7E (byte_val c) &&
  negb (bool_decide (c = strconv.dquote)) && negb (bool_decide (c = strconv.backslash)).

Section observations.
Context `{GoRuntime}.

(** The method [http.NewRequestWithContext] gives the request. *)
Definition effective_method (method : string) : string :=
  if decide (method = "") then "GET" else method.

(** The outcome of the type switch of [buildRequest]. *)
Definition payload (b : body) : outcome (option string) :=
  match b with
  | bodyNil => Done None
  | bodyReader content => Done (Some content)
  | bodyBytes bs => Done (Some bs)
  | bodyOther v =>
      match json_Marshal v with
      | Failed err => Failed err
      | Done enc => Done (Some enc)
      end
  end.

(** The text [buildRequest] hands to [url.Parse]. *)
Definition target (base route : string) (query : url.Values) : string :=
  base +:+ "/" +:+ route +:+
  (if decide (size query = 0%nat) then "" else "?" +:+ url.Encode query).

(** What [buildRequest] returns on a middleware whose value is [v]. *)
Definition built (v : tfClientMiddleware) (ctx : Context) (method route : string)
    (query : url.Values) (b : body) : result http.Request :=
  match payload b with
  | Failed err => Err (MarshalError err)
  | Done rd => NewRequestWithContext ctx method (target (addr v) route query) rd
  end.

(** The request of a create operation, once its headers are set. *)
Definition api_headers (v : tfClientMiddleware) (req : http.Request) : http.Request :=
  http.Request_Header_Set
    (http.Request_Header_Set (setBearerToken req (bearerToken v))
       headerContentType applicationVNDAPIJSON)
    headerAccept applicationJSON.

(** The request of an upload, once its headers are set. *)
Definition upload_headers (data : TFFileUploadRequest) (req : http.Request) : http.Request :=
  http.Request_Header_Set
    (http.Request_Header_Set req headerContentType (ContentType data))
    headerContentDisposition (attachmentFilenameFmt (Filename data)).

(** The last steps of the operations: the value handed back to the caller. *)
Definition decoded {T} (zero : T) (o : result (option T)) : result T :=
  match o with
  | Err e => Err e
  | Ok d => Ok (default zero d)
  end.

Definition failure {T} (o : result T) : option error :=
  match o with
  | Err e => Some e
  | Ok _ => None
  end.

(** What [handleResponse] makes of the reply of the network. *)
Definition answer {T} (req : http.Request) (reply : Reply)
    (out : option (string → outcome T)) (expectedStatus : Z) : result (option T) :=
  match reply with
  | Responded code content => classify req code content out expectedStatus
  | Refused cause | RedirectFailed _ _ cause =>
      Err (TransportError (http.Method req) (http.URL req) cause)
  end.

(** The store after a request went out through the client at [c] and its
    reply was handled. *)
Definition after_dispatch (w : World) (c : loc) (req : http.Request) : World :=
  mkWorld (clients w) (middlewares w)
    (match RoundTrip (wire w) c req with
     | Responded _ _ => <[fresh (dom (bodies w)) := mkReadCloser "" 1]> (bodies w)
     | Refused _ => bodies w
     | RedirectFailed _ content _ =>
         <[fresh (dom (bodies w)) := mkReadCloser content 1]> (bodies w)
     end)
    ((c, req) :: wire w).

(** A computation that leaves the middlewares and the clients as they are. *)
Definition keeps_config {A} (c : M A) : Prop :=
  ∀ w a w', c w = Some (a, w') →
    middlewares w' = middlewares w ∧ clients w' = clients w.

(** The calls a user of the package can make. *)
Inductive call :=
| call_NewTFClient (cfg : Config)
| call_UploadsClient (tc : TFClient)
| call_CreateProviderVersion (tc : TFProviderClient) (ctx : Context)
    (orgName regName namespace provName : string) (data : Value)
| call_CreateProviderVersionPlatform (tc : TFProviderClient) (ctx : Context)
    (orgName regName namespace provName provVersion : string) (data : Value)
| call_UploadFile (tc : TFUploadsClient) (ctx : Context) (data : TFFileUploadRequest).

Definition exec (c : call) : M unit :=
  match c with
  | call_NewTFClient cfg => NewTFClient cfg;; mret ()
  | call_UploadsClient tc => UploadsClient tc;; mret ()
  | call_CreateProviderVersion tc ctx o r n p data =>
      CreateProviderVersion tc ctx o r n p data;; mret ()
  | call_CreateProviderVersionPlatform tc ctx o r n p pv data =>
      CreateProviderVersionPlatform tc ctx o r n p pv data;; mret ()
  | call_UploadFile tc ctx data => UploadFile tc ctx data;; mret ()
  end.

(** The stores the program reaches from [w] by such calls. *)
Inductive later (w : World) : World → Prop :=
| later_now : later w w
| later_call w1 w2 c : later w w1 → exec c w1 = Some ((), w2) → later w w2.

(** Objects are added to the store, never changed or removed. *)
Definition grows (w w' : World) : Prop :=
  middlewares w ⊆ middlewares w' ∧ clients w ⊆ clients w'.

(** What a create operation owes its caller, [run] being its run from the
    store [w] on a middleware of value [v] whose client is at [c]: either
    no request could be built, the error is returned and nothing was
    sent; or one request was sent, a POST to [route] under the base
    address with the three headers, and the result follows the reply:
    the decoded body on 201, an error on any other status or when the
    transport failed. *)
Definition create_contract {T} (w : World) (v : tfClientMiddleware) (c tm : loc)
    (ctx : Context) (route : string) (data : Value) (decode : string → outcome T)
    (run : option (result T * World)) : Prop :=
  ∃ res w', run = Some (res, w') ∧
    ((∃ e, buildRequest tm ctx "POST" route ∅ (bodyOther data) w = Some (Err e, w) ∧
           res = Err e ∧ w' = w) ∨
     (∃ req, wire w' = (c, req) :: wire w ∧
        http.Method req = "POST" ∧
        http.URL req = addr v +:+ "/" +:+ route ∧
        http.Header_ req !! "Content-Type" = Some ["application/vnd.api+json"] ∧
        http.Header_ req !! "Accept" = Some ["application/json"] ∧
        http.Header_ req !! "Authorization" = Some ["Bearer " +:+ bearerToken v] ∧
        match RoundTrip (wire w) c req with
        | Responded code content =>
            (code = 201 →
               res = match json_Unmarshal decode content with
                     | Done x => Ok x
                     | Failed cause => Err (DecodeError cause)
                     end) ∧
            (code ≠ 201 → ∃ e, res = Err e)
        | Refused cause | RedirectFailed _ _ cause =>
            res = Err (TransportError "POST" (http.URL req) cause)
        end)).

(** The run of a create operation from [w] sends its request, if it can
    build one, to [route] under the base address. *)
Definition routed {T} (w : World) (v : tfClientMiddleware) (c tm : loc)
    (ctx : Context) (route : string) (data : Value)
    (run : option (result T * World)) : Prop :=
  ∃ res w', run = Some (res, w') ∧
    ((∃ e, buildRequest tm ctx "POST" route ∅ (bodyOther data) w = Some (Err e, w) ∧
           res = Err e ∧ w' = w) ∨
     (∃ req, wire w' = (c, req) :: wire w ∧
        http.URL req = addr v +:+ "/" +:+ route)).

(** What a create operation does, case by case, [run] being its run from
    the store [w] on a middleware of value [v] whose client is at [c].  A
    body that does not marshal, a nil context and a URL that does not parse
    are returned as errors, in this order, and nothing is sent.  In every
    other case one request goes out through the client: a POST to [route]
    under the base address, with the context of the caller, the encoding
    of the data as its body and the three headers; the result is the
    decoded body on status 201 (the decoding error if it does not decode),
    the error of the status on any other status, and the wrapped transport
    error when the transport fails. *)
Definition create_sends {T} (w : World) (v : tfClientMiddleware) (c : loc)
    (ctx : Context) (route : string) (data : Value) (decode : string → outcome T)
    (run : option (result T * World)) : Prop :=
  (∀ cause, json_Marshal data = Failed cause →
     run = Some (Err (MarshalError cause), w)) ∧
  (∀ enc, json_Marshal data = Done enc → ctx = None →
     run = Some (Err (RequestError http.NilContext), w)) ∧
  (∀ enc i cause, json_Marshal data = Done enc → ctx = Some i →
     url_Parse_error (addr v +:+ "/" +:+ route) = Some cause →
     run = Some (Err (RequestError (http.ParseError cause)), w)) ∧
  (∀ enc i, json_Marshal data = Done enc → ctx = Some i →
     url_Parse_error (addr v +:+ "/" +:+ route) = None →
     ∃ res w' req,
       run = Some (res, w') ∧ wire w' = (c, req) :: wire w ∧
       http.Ctx req = Some i ∧
       http.Method req = "POST" ∧
       http.URL req = addr v +:+ "/" +:+ route ∧
       http.Body req = Some enc ∧
       http.Header_ req !! "Content-Type" = Some ["application/vnd.api+json"] ∧
       http.Header_ req !! "Accept" = Some ["application/json"] ∧
       http.Header_ req !! "Authorization" = Some ["Bearer " +:+ bearerToken v] ∧
       res = match RoundTrip (wire w) c req with
             | Responded code content =>
                 if decide (code = 201) then
                   match json_Unmarshal decode content with
                   | Done x => Ok x
                   | Failed cause => Err (DecodeError cause)
                   end
                 else
                   match json_Unmarshal_errors content with
                   | Some details => Err (APIError code details)
                   | None => Err (StatusMismatchError code "POST" (http.URL req))
                   end
             | Refused cause | RedirectFailed _ _ cause =>
                 Err (TransportError "POST" (http.URL req) cause)
             end).

End observations.

(** ** A concrete environment

    A small runtime against which the program runs by computation: values
    are given by their JSON text ([None] is a value [json.Marshal] refuses,
    such as a channel), a URL fails to parse when it holds a control
    byte, documents are the texts in braces, and the network is a
    function of the request. *)
Module Demo.

Definition is_ctl (c : ascii) : bool := (byte_val c <? 32) || (byte_val c =? 127).

Definition braces (s : string) : bool :=
  match s with
  | String "{" rest => bool_decide (String.get (String.length rest - 1) rest = Some "}"%char)
  | _ => false
  end.

Definition error_doc (s : string) : option (list string) :=
  if String.prefix "{errors:" s then Some [s] else None.

Definition runtime (net : http.Request → Reply) : GoRuntime := {|
  Value := option string;
  json_Marshal v :=
    match v with
    | Some text => Done text
    | None => Failed "json: unsupported type: chan int"
    end;
  url_Parse_error u :=
    if string_forallb (λ c, negb (is_ctl c)) u then None
    else Some "net/url: invalid control character in URL";
  unicode_tables _ := false;
  RoundTrip _ _ r := net r;
  json_Valid := braces;
  json_Valid_empty := eq_refl;
  decode_errors := error_doc;
  TFCreateProviderVersionResponse := string;
  version_zero := "";
  decode_version s := Done s;
  TFCreateProviderVersionPlatformResponse := string;
  platform_zero := "";
  decode_platform s := Done s;
|}.

(** A registry that creates what is posted and stores what is put. *)
Definition registry (r : http.Request) : Reply :=
  if decide (http.Method r = "POST") then Responded 201 "{data:{id:v1}}"
  else Responded 200 "".

(** A network that answers every request with one status and body. *)
Definition always (code : Z) (content : string) (r : http.Request) : Reply :=
  Responded code content.

(** A network that is down. *)
Definition down (r : http.Request) : Reply :=
  Refused "dial tcp: connection refused".

Definition cfg : Config := mkConfig "https://app.terraform.io/" "s3cr3t".

(** The runtime with the registry behind it, and the store and the
    handles [NewTFClient cfg] leaves in the empty store. *)
Definition rt : GoRuntime := runtime registry.

Definition middleware : tfClientMiddleware :=
  mkMiddleware "https://app.terraform.io" "s3cr3t" (Some 0%nat).

Definition world : World :=
  mkWorld {[ 0%nat := cleanhttp.DefaultClientValue ]} {[ 0%nat := middleware ]} ∅ [].

Definition tc : TFClient := mkTFClient 0.

(** A record, given by its JSON text, and a channel. *)
Definition record (text : string) : @Value rt := Some text.
Definition channel : @Value rt := None.

(** An artifact to upload. *)
Definition upload : @TFFileUploadRequest rt :=
  @mkUpload rt "https://storage.example/x" (@bodyReader rt "PK")
    "application/zip" "tool_1.2.3_linux_amd64.zip".

(** Building the client, deriving the uploads client, uploading. *)
Definition upload_session : M (option error) :=
  r ← NewTFClient cfg;
  match r with
  | Err e => mret (Some e)
  | Ok tc =>
      u ← UploadsClient tc;
      UploadFile (H:=rt) u (Some 0%nat) upload
  end.

(** A client built for an address written with a leading slash, and a
    request built on it. *)
Definition slashed : Config := mkConfig "/registry.example/" "s3cr3t".

Definition ping_session : M (result http.Request) :=
  r ← NewTFClient slashed;
  match r with
  | Err e => mret (Err e)
  | Ok tc => buildRequest (H:=rt) (m tc) (Some 0%nat) "GET" "api/v2/ping" ∅ bodyNil
  end.

(** A store that holds one response body, unread and open. *)
Definition answered (content : string) : World :=
  mkWorld ∅ ∅ {[ 0%nat := mkReadCloser content 0 ]} [].

Definition put_request : http.Request :=
  http.mkRequest (Some 0%nat) "PUT" "https://app.terraform.io/x" ∅ None.

(** Building the client and creating a provider version over a given
    network. *)
Definition create_session (net : http.Request → Reply) (data : option string)
    : M (result string) :=
  r ← NewTFClient cfg;
  match r with
  | Err e => mret (Err e)
  | Ok tc =>
      CreateProviderVersion (H:=runtime net) (ProviderClient tc) (Some 0%nat)
        "acme" "priv" "myorg" "tool" data
  end.

(** What a run returned, which requests it sent and how often each body
    it received was closed. *)
Definition result_of {A} (run : option (A * World)) : option A := fst <$> run.

Definition sent (run : option (result string * World)) : list (string * string) :=
  match run with
  | Some (_, w) => (λ '(_, req), (http.Method req, http.URL req)) <$> wire w
  | None => []
  end.

Definition closes {A} (run : option (A * World)) : list nat :=
  match run with
  | Some (_, w) => (close_calls ∘ snd) <$> map_to_list (bodies w)
  | None => []
  end.

End Demo.

(** ** More of what the statements speak of *)

(** [n] copies of one byte. *)
Fixpoint string_repeat (c : ascii) (n : nat) : string :=
  match n with
  | O => ""
  | S k => String c (string_repeat c k)
  end.

(** The first and the last byte of a string. *)
Definition string_head (s : string) : option ascii :=
  match s with
  | EmptyString => None
  | String c _ => Some c
  end.

Fixpoint string_last (s : string) : option ascii :=
  match s with
  | EmptyString => None
  | String c EmptyString => Some c
  | String _ t => string_last t
  end.

(** The control bytes of ASCII, carriage return and line feed among them. *)
Definition is_control (c : ascii) : bool :=
  (byte_val c <? 32) || (byte_val c =? 127).

(** The bytes that are not control bytes. *)
Definition printable (c : ascii) : bool := negb (is_control c).

(** The bytes a query string is made of: the unreserved bytes, the percent
    sign and the plus sign of the escapes, and the two separators. *)
Definition query_byte (c : ascii) : bool :=
  is_alnum c ||
  bool_decide (c ∈ String.list_ascii_of_string "-_.~%+=&").

Section more_observations.
Context `{GoRuntime}.

(** Every middleware of the store holds a client that is in the store,
    with the default configuration, and a base address without a slash at
    either end. *)
Definition store_ok (w : World) : Prop :=
  ∀ tm v, middlewares w !! tm = Some v →
    (∃ c, hc v = Some c ∧ clients w !! c = Some cleanhttp.DefaultClientValue) ∧
    string_head (addr v) ≠ Some "/"%char ∧
    string_last (addr v) ≠ Some "/"%char.



(** What an operation that returned has done: nothing, or one request
    through the client of its middleware to a URL under its base
    address. *)
Definition sent_under_base (w w' : World) (tm : loc) : Prop :=
  w' = w ∨
  ∃ v c cl req,
    middlewares w !! tm = Some v ∧ hc v = Some c ∧ clients w !! c = Some cl ∧
    w' = after_dispatch w c req ∧
    String.prefix (addr v +:+ "/") (http.URL req) = true.

(** No response body is left open, and none is closed twice. *)
Definition bodies_closed (w : World) : Prop :=
  ∀ l b, bodies w !! l = Some b → close_calls b = 1%nat.

(** The calls of a list, one after the other; [None] when one panics. *)
Fixpoint run_calls (cs : list call) (w : World) : option World :=
  match cs with
  | [] => Some w
  | c :: rest =>
      match exec c w with
      | Some (_, w') => run_calls rest w'
      | None => None
      end
  end.

End more_observations.

(** ** More of the concrete environment *)
Module Scenario.

(** One query parameter, and a flag given as a key without values. *)
Definition page : url.Values := {[ "page" := ["2"] ]}.
Definition flag : url.Values := {[ "dry-run" := [] ]}.

(** Building the client, deriving the uploads client, creating a version
    and uploading the artifact. *)
Definition publish : list (@call Demo.rt) :=
  [ call_NewTFClient Demo.cfg;
    call_UploadsClient Demo.tc;
    call_CreateProviderVersion (ProviderClient Demo.tc) (Some 0%nat)
      "acme" "priv" "myorg" "tool" (Demo.record "{}");
    call_UploadFile (mkTFUploadsClient 1) (Some 0%nat) Demo.upload ].

End Scenario.

(** ** Strings *)

Lemma string_app_cons (x : ascii) (a b : string) :
  String x a +:+ b = String x (a +:+ b).
Proof. reflexivity. Qed.

Lemma string_app_assoc (a b c : string) : (a +:+ b) +:+ c = a +:+ b +:+ c.
Proof.
  induction a as [|x a IH]; [done|].
  by rewrite !string_app_cons, IH.
Qed.

Lemma string_app_nil_r (a : string) : a +:+ "" = a.
Proof.
  induction a as [|x a IH]; [done|].
  by rewrite string_app_cons, IH.
Qed.

Lemma string_app_length (a b : string) :
  String.length (a +:+ b) = (String.length a + String.length b)%nat.
Proof.
  induction a as [|x a IH]; [done|].
  rewrite string_app_cons. simpl. by rewrite IH.
Qed.

(** [strconv.Quote] copies a plain byte as it is. *)
Lemma quoteRunes_plain_byte tbl c t :
  plain_byte c = true →
  strconv.quoteRunes tbl 0 (String c t) = String c (strconv.quoteRunes tbl 0 t).
Proof.
  intros Hp. destruct c as [[] [] [] [] [] [] [] []];
    vm_compute in Hp; try discriminate Hp; reflexivity.
Qed.

Lemma quoteRunes_plain tbl s :
  string_forallb plain_byte s = true → strconv.quoteRunes tbl 0 s = s.
Proof.
  induction s as [|c t IH]; [done|].
  cbn [string_forallb]. intros [Hc Ht]%andb_prop.
  by rewrite quoteRunes_plain_byte, IH.
Qed.

Lemma Quote_plain tbl s :
  string_forallb plain_byte s = true →
  strconv.Quote tbl s = String strconv.dquote (s +:+ String strconv.dquote "").
Proof. intros Hs. unfold strconv.Quote. by rewrite quoteRunes_plain. Qed.

(** ** Running the program *)

Ltac run_step :=
  unfold mbind, M_bind, mret, M_ret, get_world, panic,
    set_clients, set_middlewares, set_bodies, set_wire; simpl.

Ltac bind_step := unfold mbind at 1, M_bind at 1.

Section runs.
Context `{GoRuntime}.

Lemma fresh_middleware_None w : middlewares w !! fresh (dom (middlewares w)) = None.
Proof. apply not_elem_of_dom, is_fresh. Qed.

Lemma fresh_client_None w : clients w !! fresh (dom (clients w)) = None.
Proof. apply not_elem_of_dom, is_fresh. Qed.

Lemma load_run w tm v :
  middlewares w !! tm = Some v → load tm w = Some (v, w).
Proof. intros Hv. unfold load. run_step. by rewrite Hv. Qed.

Lemma load_panics w tm :
  middlewares w !! tm = None → load tm w = None.
Proof. intros Hv. unfold load. run_step. by rewrite Hv. Qed.

Lemma new_middleware_run w :
  new_middleware w =
    Some (fresh (dom (middlewares w)),
          mkWorld (clients w)
                  (<[fresh (dom (middlewares w)) := zeroMiddleware]> (middlewares w))
                  (bodies w) (wire w)).
Proof. reflexivity. Qed.

Lemma DefaultClient_run w :
  DefaultClient w =
    Some (fresh (dom (clients w)),
          mkWorld (<[fresh (dom (clients w)) := cleanhttp.DefaultClientValue]> (clients w))
                  (middlewares w) (bodies w) (wire w)).
Proof. reflexivity. Qed.

Lemma update_run w tm v f :
  middlewares w !! tm = Some v →
  update tm f w =
    Some ((), mkWorld (clients w) (<[tm := f v]> (middlewares w)) (bodies w) (wire w)).
Proof. intros Hv. unfold update. run_step. by rewrite (load_run _ _ _ Hv). Qed.

Lemma store_run w tm v v' :
  middlewares w !! tm = Some v →
  store tm v' w =
    Some ((), mkWorld (clients w) (<[tm := v']> (middlewares w)) (bodies w) (wire w)).
Proof. intros Hv. unfold store. run_step. by rewrite (load_run _ _ _ Hv). Qed.

Lemma newTFClientMiddleware_run cfg w :
  newTFClientMiddleware cfg w =
    Some (Ok (fresh (dom (middlewares w))),
          mkWorld (<[fresh (dom (clients w)) := cleanhttp.DefaultClientValue]> (clients w))
                  (<[fresh (dom (middlewares w)) :=
                       mkMiddleware (strings.Trim (TFAddress cfg) "/") (TFToken cfg)
                                    (Some (fresh (dom (clients w))))]> (middlewares w))
                  (bodies w) (wire w)).
Proof.
  unfold newTFClientMiddleware.
  bind_step. rewrite new_middleware_run.
  bind_step. erewrite update_run by (simpl; apply lookup_insert_eq).
  bind_step. erewrite update_run by (simpl; apply lookup_insert_eq).
  bind_step. rewrite DefaultClient_run.
  bind_step. erewrite update_run by (simpl; apply lookup_insert_eq).
  simpl. by rewrite !insert_insert_eq.
Qed.

Lemma NewTFClient_run cfg w :
  NewTFClient cfg w =
    Some (Ok (mkTFClient (fresh (dom (middlewares w)))),
          mkWorld (<[fresh (dom (clients w)) := cleanhttp.DefaultClientValue]> (clients w))
                  (<[fresh (dom (middlewares w)) :=
                       mkMiddleware (strings.Trim (TFAddress cfg) "/") (TFToken cfg)
                                    (Some (fresh (dom (clients w))))]> (middlewares w))
                  (bodies w) (wire w)).
Proof.
  unfold NewTFClient. bind_step. by rewrite newTFClientMiddleware_run.
Qed.

Lemma copy_run w tm v c :
  middlewares w !! tm = Some v →
  copy tm c w =
    Some (fresh (dom (middlewares w)),
          mkWorld (clients w)
                  (<[fresh (dom (middlewares w)) := set_hc v c]> (middlewares w))
                  (bodies w) (wire w)).
Proof.
  intros Hv. unfold copy.
  bind_step. rewrite new_middleware_run.
  assert (Hne : fresh (dom (middlewares w)) ≠ tm).
  { intros E. rewrite <- E, fresh_middleware_None in Hv. discriminate. }
  bind_step. erewrite load_run by (simpl; rewrite lookup_insert_ne by done; exact Hv).
  bind_step. erewrite store_run by (simpl; apply lookup_insert_eq).
  bind_step. erewrite update_run by (simpl; apply lookup_insert_eq).
  simpl. by rewrite !insert_insert_eq.
Qed.

Lemma UploadsClient_run w tc v :
  middlewares w !! m tc = Some v →
  UploadsClient tc w =
    Some (mkTFUploadsClient (fresh (dom (middlewares w))),
          mkWorld (<[fresh (dom (clients w)) := cleanhttp.DefaultClientValue]> (clients w))
                  (<[fresh (dom (middlewares w)) :=
                       set_hc v (Some (fresh (dom (clients w))))]> (middlewares w))
                  (bodies w) (wire w)).
Proof.
  intros Hv. unfold UploadsClient.
  bind_step. rewrite DefaultClient_run.
  bind_step. by erewrite copy_run by (simpl; exact Hv).
Qed.

Lemma buildURL_run w tm v route :
  middlewares w !! tm = Some v →
  buildURL tm route w = Some (addr v +:+ "/" +:+ route, w).
Proof. intros Hv. unfold buildURL. run_step. by rewrite (load_run _ _ _ Hv). Qed.

Lemma target_no_query base route : target base route ∅ = base +:+ "/" +:+ route.
Proof.
  unfold target. rewrite decide_True by apply map_size_empty.
  by rewrite string_app_nil_r.
Qed.

Lemma buildRequest_built w tm v ctx method route query b :
  middlewares w !! tm = Some v →
  buildRequest tm ctx method route query b w = Some (built v ctx method route query b, w).
Proof.
  intros Hv. unfold buildRequest, built, payload, target.
  assert (Hq : (if decide (0 < size query)%nat
                then (addr v +:+ "/" +:+ route) +:+ "?" +:+ url.Encode query
                else addr v +:+ "/" +:+ route)
               = addr v +:+ "/" +:+ route +:+
                 (if decide (size query = 0%nat) then "" else "?" +:+ url.Encode query)).
  { destruct (decide (0 < size query)%nat), (decide (size query = 0%nat)); try lia.
    - by rewrite !string_app_assoc.
    - by rewrite string_app_nil_r. }
  destruct b as [|content|bs|x]; simpl; try destruct (json_Marshal x); simpl;
    run_step; rewrite ?(buildURL_run _ _ _ _ Hv); simpl; by rewrite ?Hq.
Qed.

Lemma NewRequest_fields ctx method u body req :
  NewRequestWithContext ctx method u body = Ok req →
  http.Ctx req = ctx ∧ http.Method req = effective_method method ∧
  http.URL req = u ∧ http.Header_ req = ∅ ∧ http.Body req = body.
Proof.
  unfold NewRequestWithContext, effective_method.
  destruct (negb _); [done|]. destruct ctx; [|done].
  destruct (url_Parse_error u); [done|]. by intros [= <-].
Qed.

Lemma NewRequest_ok i method u body :
  http.validMethod (effective_method method) = true →
  url_Parse_error u = None →
  NewRequestWithContext (Some i) method u body =
    Ok (http.mkRequest (Some i) (effective_method method) u ∅ body).
Proof.
  intros Hm Hu. unfold NewRequestWithContext. fold (effective_method method).
  by rewrite Hm, Hu.
Qed.

Lemma NewRequest_not_marshal ctx method u body cause :
  NewRequestWithContext ctx method u body ≠ Err (MarshalError cause).
Proof.
  unfold NewRequestWithContext.
  destruct (negb _); [done|]. destruct ctx; [|done].
  by destruct (url_Parse_error u).
Qed.

Lemma built_fields v ctx method route query b req :
  built v ctx method route query b = Ok req →
  http.Method req = effective_method method ∧
  http.URL req = target (addr v) route query ∧
  http.Header_ req = ∅ ∧
  payload b = Done (http.Body req).
Proof.
  unfold built. destruct (payload b) as [rd|]; [|done].
  intros (_ & ? & ? & ? & <-)%NewRequest_fields. done.
Qed.

Lemma ReadAll_run w l b :
  bodies w !! l = Some b →
  ReadAll l w =
    Some (unread b,
          mkWorld (clients w) (middlewares w)
                  (<[l := mkReadCloser "" (close_calls b)]> (bodies w)) (wire w)).
Proof. intros Hb. unfold ReadAll. run_step. by rewrite Hb. Qed.

Lemma Close_run w l b :
  bodies w !! l = Some b →
  Close l w =
    Some ((),
          mkWorld (clients w) (middlewares w)
                  (<[l := mkReadCloser (unread b) (S (close_calls b))]> (bodies w)) (wire w)).
Proof. intros Hb. unfold Close. run_step. by rewrite Hb. Qed.

Lemma handleResponse_run {T} w req r b (out : option (string → outcome T)) expected :
  bodies w !! http.RespBody r = Some b →
  handleResponse req (Some r) None out expected w =
    Some (classify req (http.StatusCode r) (unread b) out expected,
          mkWorld (clients w) (middlewares w)
                  (<[http.RespBody r := mkReadCloser "" (S (close_calls b))]> (bodies w))
                  (wire w)).
Proof.
  intros Hb. unfold handleResponse.
  bind_step. rewrite (ReadAll_run _ _ _ Hb).
  bind_step. erewrite Close_run by (simpl; apply lookup_insert_eq).
  simpl. by rewrite insert_insert_eq.
Qed.

Lemma handleResponse_transport {T} w req resp cause
    (out : option (string → outcome T)) expected :
  handleResponse req resp (Some cause) out expected w =
    Some (Err (TransportError (http.Method req) (http.URL req) cause), w).
Proof. reflexivity. Qed.

Lemma Client_Do_run w c cl req :
  clients w !! c = Some cl →
  Client_Do c req w =
    match RoundTrip (wire w) c req with
    | Responded code content =>
        Some ((Some (http.mkResponse code (fresh (dom (bodies w)))), None),
              mkWorld (clients w) (middlewares w)
                (<[fresh (dom (bodies w)) := mkReadCloser content 0]> (bodies w))
                ((c, req) :: wire w))
    | Refused cause =>
        Some ((None, Some cause),
              mkWorld (clients w) (middlewares w) (bodies w) ((c, req) :: wire w))
    | RedirectFailed code content cause =>
        Some ((Some (http.mkResponse code (fresh (dom (bodies w)))), Some cause),
              mkWorld (clients w) (middlewares w)
                (<[fresh (dom (bodies w)) := mkReadCloser content 1]> (bodies w))
                ((c, req) :: wire w))
    end.
Proof.
  intros Hcl. unfold Client_Do. run_step. rewrite Hcl.
  by destruct (RoundTrip (wire w) c req).
Qed.

Lemma do_run w tm v c cl req :
  middlewares w !! tm = Some v → hc v = Some c → clients w !! c = Some cl →
  do tm req w = Client_Do c req w.
Proof.
  intros Hv Hc Hcl. unfold do. bind_step.
  by rewrite (load_run _ _ _ Hv), Hc.
Qed.

(** Dispatch and response handling, with the rest of the operation as a
    continuation. *)
Lemma do_handle_run {T A} w tm v c cl req (out : option (string → outcome T)) expected
    (k : result (option T) → M A) :
  middlewares w !! tm = Some v → hc v = Some c → clients w !! c = Some cl →
  ('(resp, err) ← do tm req; o ← handleResponse req resp err out expected; k o) w =
    k (answer req (RoundTrip (wire w) c req) out expected) (after_dispatch w c req).
Proof.
  intros Hv Hc Hcl. bind_step.
  rewrite (do_run _ _ _ _ _ _ Hv Hc Hcl), (Client_Do_run _ _ _ _ Hcl).
  unfold after_dispatch, answer.
  destruct (RoundTrip (wire w) c req) as [code content|cause|code content cause];
    lazy beta iota; unfold mbind, M_bind.
  - erewrite handleResponse_run by (simpl; apply lookup_insert_eq).
    simpl. by rewrite insert_insert_eq.
  - by rewrite handleResponse_transport.
  - by rewrite handleResponse_transport.
Qed.

Lemma CreateProviderVersion_run w tc v c cl ctx orgName regName namespace provName data :
  middlewares w !! pm tc = Some v → hc v = Some c → clients w !! c = Some cl →
  CreateProviderVersion tc ctx orgName regName namespace provName data w =
    match built v ctx http.MethodPost
            (buildRoute [pathAPI; pathV2; pathOrganizations; orgName;
                         pathRegistryProviders; regName; namespace; provName;
                         pathVersions])
            ∅ (bodyOther data) with
    | Err e => Some (Err e, w)
    | Ok req0 =>
        Some (decoded version_zero
                (answer (api_headers v req0)
                   (RoundTrip (wire w) c (api_headers v req0))
                   (Some decode_version) http.StatusCreated),
              after_dispatch w c (api_headers v req0))
    end.
Proof.
  intros Hv Hc Hcl. unfold CreateProviderVersion.
  bind_step. rewrite (buildRequest_built _ _ _ _ _ _ _ _ Hv).
  destruct (built _ _ _ _ _ _) as [req0|e]; [|done].
  bind_step. rewrite (load_run _ _ _ Hv).
  lazy zeta. rewrite (do_handle_run _ _ _ _ _ _ _ _ _ Hv Hc Hcl).
  fold (api_headers v req0).
  by destruct (answer _ _ _ _).
Qed.

Lemma CreateProviderVersionPlatform_run w tc v c cl ctx orgName regName namespace provName
    provVersion data :
  middlewares w !! pm tc = Some v → hc v = Some c → clients w !! c = Some cl →
  CreateProviderVersionPlatform tc ctx orgName regName namespace provName provVersion data w =
    match built v ctx http.MethodPost
            (buildRoute [pathAPI; pathV2; pathOrganizations; orgName;
                         pathRegistryProviders; regName; namespace; provName;
                         pathVersions; provVersion; pathPlatforms])
            ∅ (bodyOther data) with
    | Err e => Some (Err e, w)
    | Ok req0 =>
        Some (decoded platform_zero
                (answer (api_headers v req0)
                   (RoundTrip (wire w) c (api_headers v req0))
                   (Some decode_platform) http.StatusCreated),
              after_dispatch w c (api_headers v req0))
    end.
Proof.
  intros Hv Hc Hcl. unfold CreateProviderVersionPlatform.
  bind_step. rewrite (buildRequest_built _ _ _ _ _ _ _ _ Hv).
  destruct (built _ _ _ _ _ _) as [req0|e]; [|done].
  bind_step. rewrite (load_run _ _ _ Hv).
  lazy zeta. rewrite (do_handle_run _ _ _ _ _ _ _ _ _ Hv Hc Hcl).
  fold (api_headers v req0).
  by destruct (answer _ _ _ _).
Qed.

Lemma UploadFile_run w tc v c cl ctx data :
  middlewares w !! um tc = Some v → hc v = Some c → clients w !! c = Some cl →
  UploadFile tc ctx data w =
    match built v ctx http.MethodPut (Destination data) ∅ (File data) with
    | Err e => Some (Some e, w)
    | Ok req0 =>
        Some (failure
                (answer (T:=unit) (upload_headers data req0)
                   (RoundTrip (wire w) c (upload_headers data req0))
                   None http.StatusOK),
              after_dispatch w c (upload_headers data req0))
    end.
Proof.
  intros Hv Hc Hcl. unfold UploadFile.
  bind_step. rewrite (buildRequest_built _ _ _ _ _ _ _ _ Hv).
  destruct (built _ _ _ _ _ _) as [req0|e]; [|done].
  lazy zeta. rewrite (do_handle_run _ _ _ _ _ _ _ _ _ Hv Hc Hcl).
  fold (upload_headers data req0).
  by destruct (answer _ _ _ _).
Qed.

End runs.

(** ** The configuration is never written after construction *)

Section frame.
Context `{GoRuntime}.

Lemma keeps_ret {A} (a : A) : keeps_config (mret a).
Proof. intros w a' w' [= _ <-]. done. Qed.

Lemma keeps_panic {A} : keeps_config (@panic A).
Proof. intros w a w' [=]. Qed.

Lemma keeps_bind {A B} (c : M A) (f : A → M B) :
  keeps_config c → (∀ a, keeps_config (f a)) → keeps_config (c ≫= f).
Proof.
  intros Hc Hf w b w'. unfold mbind, M_bind.
  destruct (c w) as [[a w1]|] eqn:E; [|done].
  intros E'. destruct (Hc _ _ _ E) as [<- <-]. by apply (Hf a _ _ _ E').
Qed.

Lemma keeps_get_world : keeps_config get_world.
Proof. intros w a w' [= _ <-]. done. Qed.

Lemma keeps_set_wire f : keeps_config (set_wire f).
Proof. intros w a w' [= _ <-]. done. Qed.

Lemma keeps_set_bodies f : keeps_config (set_bodies f).
Proof. intros w a w' [= _ <-]. done. Qed.

Local Ltac keeps :=
  repeat first
    [ apply keeps_ret | apply keeps_panic | apply keeps_get_world
    | apply keeps_set_wire | apply keeps_set_bodies
    | apply keeps_bind; [|intros ?]
    | match goal with
      | |- keeps_config (match ?x with _ => _ end) => destruct x
      end ].

Lemma keeps_load tm : keeps_config (load tm).
Proof. unfold load. keeps. Qed.

Lemma keeps_ReadAll l : keeps_config (ReadAll l).
Proof. unfold ReadAll. keeps. Qed.

Lemma keeps_Close l : keeps_config (Close l).
Proof. unfold Close. keeps. Qed.

Lemma keeps_Client_Do c r : keeps_config (Client_Do c r).
Proof. unfold Client_Do. keeps. Qed.

Lemma keeps_do tm r : keeps_config (do tm r).
Proof.
  unfold do. apply keeps_bind; [apply keeps_load|].
  intros v. destruct (hc v); [apply keeps_Client_Do | apply keeps_panic].
Qed.

Lemma keeps_buildURL tm route : keeps_config (buildURL tm route).
Proof. unfold buildURL. apply keeps_bind; [apply keeps_load|]. intros. apply keeps_ret. Qed.

Lemma keeps_buildRequest tm ctx method route query b :
  keeps_config (buildRequest tm ctx method route query b).
Proof.
  unfold buildRequest.
  destruct b as [| | |x]; try destruct (json_Marshal x);
    first [ apply keeps_ret
          | apply keeps_bind; [apply keeps_buildURL | intros; apply keeps_ret] ].
Qed.

Lemma keeps_handleResponse {T} req resp err (out : option (string → outcome T)) expected :
  keeps_config (handleResponse req resp err out expected).
Proof.
  unfold handleResponse. destruct err; [apply keeps_ret|].
  destruct resp; [|apply keeps_panic].
  apply keeps_bind; [apply keeps_ReadAll|]. intros.
  apply keeps_bind; [apply keeps_Close|]. intros. apply keeps_ret.
Qed.

Lemma keeps_CreateProviderVersion tc ctx o r n p data :
  keeps_config (CreateProviderVersion tc ctx o r n p data).
Proof.
  unfold CreateProviderVersion.
  apply keeps_bind; [apply keeps_buildRequest|]. intros [req|e]; [|apply keeps_ret].
  apply keeps_bind; [apply keeps_load|]. intros v.
  apply keeps_bind; [apply keeps_do|]. intros [resp err].
  apply keeps_bind; [apply keeps_handleResponse|]. intros [d|e]; apply keeps_ret.
Qed.

Lemma keeps_CreateProviderVersionPlatform tc ctx o r n p pv data :
  keeps_config (CreateProviderVersionPlatform tc ctx o r n p pv data).
Proof.
  unfold CreateProviderVersionPlatform.
  apply keeps_bind; [apply keeps_buildRequest|]. intros [req|e]; [|apply keeps_ret].
  apply keeps_bind; [apply keeps_load|]. intros v.
  apply keeps_bind; [apply keeps_do|]. intros [resp err].
  apply keeps_bind; [apply keeps_handleResponse|]. intros [d|e]; apply keeps_ret.
Qed.

Lemma keeps_UploadFile tc ctx data : keeps_config (UploadFile tc ctx data).
Proof.
  unfold UploadFile.
  apply keeps_bind; [apply keeps_buildRequest|]. intros [req|e]; [|apply keeps_ret].
  apply keeps_bind; [apply keeps_do|]. intros [resp err].
  apply keeps_bind; [apply keeps_handleResponse|]. intros [d|e]; apply keeps_ret.
Qed.

Lemma grows_refl w : grows w w.
Proof. by split. Qed.

Lemma grows_trans w1 w2 w3 : grows w1 w2 → grows w2 w3 → grows w1 w3.
Proof. intros [??] [??]. split; by etrans. Qed.

Lemma keeps_grows {A} (c : M A) w a w' :
  keeps_config c → c w = Some (a, w') → grows w w'.
Proof. intros Hc E. destruct (Hc _ _ _ E) as [E1 E2]. split; by rewrite ?E1, ?E2. Qed.

Lemma NewTFClient_grows cfg w r w' : NewTFClient cfg w = Some (r, w') → grows w w'.
Proof.
  rewrite NewTFClient_run. intros [= _ <-]. split; simpl.
  - apply insert_subseteq, fresh_middleware_None.
  - apply insert_subseteq, fresh_client_None.
Qed.

Lemma UploadsClient_grows tc w u w' : UploadsClient tc w = Some (u, w') → grows w w'.
Proof.
  destruct (middlewares w !! m tc) as [v|] eqn:Hv.
  - rewrite (UploadsClient_run _ _ _ Hv). intros [= _ <-]. split; simpl.
    + apply insert_subseteq, fresh_middleware_None.
    + apply insert_subseteq, fresh_client_None.
  - unfold UploadsClient, copy.
    bind_step. rewrite DefaultClient_run.
    bind_step. bind_step. rewrite new_middleware_run.
    bind_step. simpl middlewares.
    destruct (decide (m tc = fresh (dom (middlewares w)))) as [E|Hne].
    + erewrite load_run by (simpl; rewrite E; apply lookup_insert_eq).
      bind_step. erewrite store_run by (simpl; apply lookup_insert_eq).
      bind_step. erewrite update_run by (simpl; apply lookup_insert_eq).
      simpl. intros [= _ <-]. split; simpl.
      * rewrite !insert_insert_eq. apply insert_subseteq, fresh_middleware_None.
      * apply insert_subseteq, fresh_client_None.
    + rewrite load_panics; [done|]. simpl. by rewrite lookup_insert_ne.
Qed.

Lemma exec_grows c w w' : exec c w = Some ((), w') → grows w w'.
Proof.
  destruct c; unfold exec, mbind, M_bind;
    match goal with |- context [match ?op w with _ => _ end] =>
      destruct (op w) as [[a w1]|] eqn:E; [|done] end;
    intros [= <-].
  - by eapply NewTFClient_grows.
  - by eapply UploadsClient_grows.
  - eapply keeps_grows; [apply keeps_CreateProviderVersion | exact E].
  - eapply keeps_grows; [apply keeps_CreateProviderVersionPlatform | exact E].
  - eapply keeps_grows; [apply keeps_UploadFile | exact E].
Qed.

Lemma later_grows w w' : later w w' → grows w w'.
Proof.
  induction 1 as [|w1 w2 c _ IH E]; [apply grows_refl|].
  eapply grows_trans; [exact IH | by eapply exec_grows].
Qed.

Lemma later_middleware w w' tm v :
  later w w' → middlewares w !! tm = Some v → middlewares w' !! tm = Some v.
Proof. intros [Hm _]%later_grows Hv. by eapply lookup_weaken. Qed.

Lemma later_client w w' c cl :
  later w w' → clients w !! c = Some cl → clients w' !! c = Some cl.
Proof. intros [_ Hc]%later_grows Hv. by eapply lookup_weaken. Qed.

End frame.

(** ** Headers and contracts of the operations *)

Section contracts.
Context `{GoRuntime}.

Lemma api_headers_fields v req :
  http.Method (api_headers v req) = http.Method req ∧
  http.URL (api_headers v req) = http.URL req ∧
  http.Body (api_headers v req) = http.Body req ∧
  http.Header_ (api_headers v req) !! "Content-Type" = Some ["application/vnd.api+json"] ∧
  http.Header_ (api_headers v req) !! "Accept" = Some ["application/json"] ∧
  http.Header_ (api_headers v req) !! "Authorization" = Some ["Bearer " +:+ bearerToken v].
Proof.
  unfold api_headers, setBearerToken, http.Request_Header_Set, http.Header_Set,
    http.with_Header. simpl.
  change (textproto.CanonicalMIMEHeaderKey headerAccept) with "Accept".
  change (textproto.CanonicalMIMEHeaderKey headerContentType) with "Content-Type".
  change (textproto.CanonicalMIMEHeaderKey headerAuthorization) with "Authorization".
  repeat split.
  - rewrite lookup_insert_ne by done. apply lookup_insert_eq.
  - apply lookup_insert_eq.
  - rewrite !lookup_insert_ne by done. apply lookup_insert_eq.
Qed.

Lemma upload_headers_fields data req :
  http.Method (upload_headers data req) = http.Method req ∧
  http.URL (upload_headers data req) = http.URL req ∧
  http.Body (upload_headers data req) = http.Body req ∧
  http.Header_ (upload_headers data req) !! "Content-Type" = Some [ContentType data] ∧
  http.Header_ (upload_headers data req) !! "Content-Disposition" =
    Some ["attachment; filename=" +:+ strconv.Quote unicode_tables (Filename data)] ∧
  http.Header_ (upload_headers data req) !! "Authorization" =
    http.Header_ req !! "Authorization".
Proof.
  unfold upload_headers, http.Request_Header_Set, http.Header_Set,
    http.with_Header, attachmentFilenameFmt. simpl.
  change (textproto.CanonicalMIMEHeaderKey headerContentDisposition)
    with "Content-Disposition".
  change (textproto.CanonicalMIMEHeaderKey headerContentType) with "Content-Type".
  repeat split.
  - rewrite lookup_insert_ne by done. apply lookup_insert_eq.
  - apply lookup_insert_eq.
  - by rewrite !lookup_insert_ne.
Qed.

Lemma create_contract_holds {T} w v c tm ctx route data
    (decode : string → outcome T) (zero : T) :
  middlewares w !! tm = Some v →
  create_contract w v c tm ctx route data decode
    match built v ctx http.MethodPost route ∅ (bodyOther data) with
    | Err e => Some (Err e, w)
    | Ok req0 =>
        Some (decoded zero
                (answer (api_headers v req0)
                   (RoundTrip (wire w) c (api_headers v req0))
                   (Some decode) http.StatusCreated),
              after_dispatch w c (api_headers v req0))
    end.
Proof.
  intros Hv. unfold create_contract.
  rewrite (buildRequest_built _ _ _ _ _ _ _ _ Hv).
  change "POST" with http.MethodPost.
  destruct (built v ctx http.MethodPost route ∅ (bodyOther data)) as [req0|e] eqn:Eb.
  - eexists _, _. split; [reflexivity|]. right.
    destruct (built_fields _ _ _ _ _ _ _ Eb) as (Hm & Hu & _ & _).
    rewrite target_no_query in Hu.
    destruct (api_headers_fields v req0) as (Em & Eu & _ & Hct & Hacc & Hauth).
    exists (api_headers v req0). rewrite Em, Eu, Hm, Hu.
    repeat (split; [done|]).
    unfold answer, classify, decoded, http.StatusCreated.
    destruct (RoundTrip _ _ _) as [code content|cause|code content cause].
    + split.
      * intros ->. rewrite decide_False by (intros ?; done).
        by destruct (json_Unmarshal decode content).
      * intros Hne. rewrite decide_True by done.
        rewrite Em, Eu. destruct (json_Unmarshal_errors content); by eexists.
    + by rewrite Em, Eu, Hm, Hu.
    + by rewrite Em, Eu, Hm, Hu.
  - eexists _, _. split; [reflexivity|]. left. by exists e.
Qed.

Lemma create_contract_routed {T} w v c tm ctx route data
    (decode : string → outcome T) run :
  create_contract w v c tm ctx route data decode run → routed w v c tm ctx route data run.
Proof.
  intros (res & w' & E & [Hl | (req & Hw & _ & Hu & _)]);
    exists res, w'; (split; [done|]); [by left | right; by exists req].
Qed.

Lemma CreateProviderVersion_contract w tc v c cl ctx orgName regName namespace provName data :
  middlewares w !! pm tc = Some v → hc v = Some c → clients w !! c = Some cl →
  create_contract w v c (pm tc) ctx
    (buildRoute [pathAPI; pathV2; pathOrganizations; orgName; pathRegistryProviders;
                 regName; namespace; provName; pathVersions])
    data decode_version
    (CreateProviderVersion tc ctx orgName regName namespace provName data w).
Proof.
  intros Hv Hc Hcl.
  rewrite (CreateProviderVersion_run _ _ _ _ _ _ _ _ _ _ _ Hv Hc Hcl).
  by apply create_contract_holds.
Qed.

Lemma CreateProviderVersionPlatform_contract w tc v c cl ctx orgName regName namespace
    provName provVersion data :
  middlewares w !! pm tc = Some v → hc v = Some c → clients w !! c = Some cl →
  create_contract w v c (pm tc) ctx
    (buildRoute [pathAPI; pathV2; pathOrganizations; orgName; pathRegistryProviders;
                 regName; namespace; provName; pathVersions; provVersion; pathPlatforms])
    data decode_platform
    (CreateProviderVersionPlatform tc ctx orgName regName namespace provName provVersion
       data w).
Proof.
  intros Hv Hc Hcl.
  rewrite (CreateProviderVersionPlatform_run _ _ _ _ _ _ _ _ _ _ _ _ Hv Hc Hcl).
  by apply create_contract_holds.
Qed.

Lemma NewRequest_nil_context method u body :
  http.validMethod (effective_method method) = true →
  NewRequestWithContext None method u body = Err (RequestError http.NilContext).
Proof.
  intros Hm. unfold NewRequestWithContext. fold (effective_method method).
  by rewrite Hm.
Qed.

Lemma NewRequest_parse_error i method u body cause :
  http.validMethod (effective_method method) = true →
  url_Parse_error u = Some cause →
  NewRequestWithContext (Some i) method u body =
    Err (RequestError (http.ParseError cause)).
Proof.
  intros Hm Hu. unfold NewRequestWithContext. fold (effective_method method).
  by rewrite Hm, Hu.
Qed.

Lemma create_sends_holds {T} w v c ctx route data
    (decode : string → outcome T) (zero : T) :
  create_sends w v c ctx route data decode
    match built v ctx http.MethodPost route ∅ (bodyOther data) with
    | Err e => Some (Err e, w)
    | Ok req0 =>
        Some (decoded zero
                (answer (api_headers v req0)
                   (RoundTrip (wire w) c (api_headers v req0))
                   (Some decode) http.StatusCreated),
              after_dispatch w c (api_headers v req0))
    end.
Proof.
  assert (Hpost : http.validMethod (effective_method http.MethodPost) = true)
    by (vm_compute; reflexivity).
  unfold create_sends, built, payload. rewrite target_no_query.
  split; [|split; [|split]].
  - intros cause Hm. by rewrite Hm.
  - intros enc Hm ->. by rewrite Hm, (NewRequest_nil_context _ _ _ Hpost).
  - intros enc i cause Hm -> Hu.
    by rewrite Hm, (NewRequest_parse_error _ _ _ _ _ Hpost Hu).
  - intros enc i Hm -> Hu. rewrite Hm, (NewRequest_ok _ _ _ _ Hpost Hu).
    set (req0 := http.mkRequest (Some i) (effective_method http.MethodPost)
                   (addr v +:+ "/" +:+ route) ∅ (Some enc)).
    destruct (api_headers_fields v req0) as (Em & Eu & Eb & Hct & Hacc & Hauth).
    eexists _, _, (api_headers v req0). split; [reflexivity|].
    repeat (split; [done|]).
    unfold answer, classify, decoded, http.StatusCreated. rewrite Em, Eu.
    destruct (RoundTrip _ _ _) as [code content|cause|code content cause];
      [|done|done].
    destruct (decide (code ≠ 201)) as [Hne|Heq], (decide (code = 201)) as [He|Hn];
      try (exfalso; lia).
    + by destruct (json_Unmarshal_errors content).
    + by destruct (json_Unmarshal decode content).
Qed.

End contracts.

(** ** The claims *)

Section claims.
Context `{GoRuntime}.

(** The defect behind C1, at every input.  [UploadFile] hands the
    destination to [buildRequest] as a route, and [buildURL] puts the base
    address and a slash before it: whenever a PUT is sent, its target is
    not the destination the caller supplied. *)
Lemma UploadFile_prefixes_base_address w tc v c cl ctx data :
  middlewares w !! um tc = Some v → hc v = Some c → clients w !! c = Some cl →
  ∃ res w', UploadFile tc ctx data w = Some (res, w') ∧
    ((∃ e, buildRequest (um tc) ctx "PUT" (Destination data) ∅ (File data) w =
             Some (Err e, w) ∧ res = Some e ∧ w' = w) ∨
     (∃ req, wire w' = (c, req) :: wire w ∧
        http.Method req = "PUT" ∧
        http.URL req = addr v +:+ "/" +:+ Destination data ∧
        http.URL req ≠ Destination data)).
Proof.
  intros Hv Hc Hcl. rewrite (UploadFile_run _ _ _ _ _ _ _ Hv Hc Hcl).
  rewrite (buildRequest_built _ _ _ _ _ _ _ _ Hv). change "PUT" with http.MethodPut.
  destruct (built v ctx http.MethodPut (Destination data) ∅ (File data)) as [req0|e] eqn:Eb.
  - eexists _, _. split; [reflexivity|]. right.
    destruct (built_fields _ _ _ _ _ _ _ Eb) as (Hm & Hu & _ & _).
    rewrite target_no_query in Hu.
    destruct (upload_headers_fields data req0) as (Em & Eu & _).
    exists (upload_headers data req0). rewrite Em, Eu, Hm, Hu.
    repeat (split; [done|]).
    intros E. apply (f_equal String.length) in E.
    rewrite !string_app_length in E. simpl in E. lia.
  - eexists _, _. split; [reflexivity|]. left. by exists e.
Qed.

(** C2.  On a middleware in the store, [buildRequest] dispatches on the
    kind of the body.  A reader or a byte slice goes to the request as it
    is: the result is that of [http.NewRequestWithContext] on these very
    bytes, it is never a marshalling error, a request that is built holds
    exactly these bytes, and one is built whenever the context, the method
    and the URL are in order.  Any other value is passed to
    [json.Marshal]: its encoding becomes the payload, and its failure is
    returned as the marshalling error, with the store untouched; the three
    operations then return that error and send nothing. *)
Theorem buildRequest_body_dispatch w tm v ctx method route query :
  middlewares w !! tm = Some v →
  (∀ b content, b = bodyReader content ∨ b = bodyBytes content →
     buildRequest tm ctx method route query b w =
       Some (NewRequestWithContext ctx method (target (addr v) route query) (Some content),
             w) ∧
     (∀ cause,
        buildRequest tm ctx method route query b w ≠ Some (Err (MarshalError cause), w)) ∧
     (∀ req, buildRequest tm ctx method route query b w = Some (Ok req, w) →
        http.Body req = Some content) ∧
     (∀ i, ctx = Some i → http.validMethod (effective_method method) = true →
        url_Parse_error (target (addr v) route query) = None →
        ∃ req, buildRequest tm ctx method route query b w = Some (Ok req, w))) ∧
  (∀ x enc, json_Marshal x = Done enc →
     buildRequest tm ctx method route query (bodyOther x) w =
       Some (NewRequestWithContext ctx method (target (addr v) route query) (Some enc), w)) ∧
  (∀ x cause, json_Marshal x = Failed cause →
     buildRequest tm ctx method route query (bodyOther x) w =
       Some (Err (MarshalError cause), w) ∧
     (∀ tc o r n p,
        CreateProviderVersion tc ctx o r n p x w = Some (Err (MarshalError cause), w)) ∧
     (∀ tc o r n p pv,
        CreateProviderVersionPlatform tc ctx o r n p pv x w =
          Some (Err (MarshalError cause), w)) ∧
     (∀ tc dest ct fn,
        UploadFile tc ctx (mkUpload _ dest (bodyOther x) ct fn) w =
          Some (Some (MarshalError cause), w))).
Proof.
  intros Hv. split; [|split].
  - intros b content Hb.
    assert (E : buildRequest tm ctx method route query b w =
       Some (NewRequestWithContext ctx method (target (addr v) route query) (Some content),
             w)).
    { rewrite (buildRequest_built _ _ _ _ _ _ _ _ Hv). by destruct Hb as [-> | ->]. }
    rewrite E. split; [done|]. split; [|split].
    + intros cause [= E']. by apply NewRequest_not_marshal in E'.
    + intros req [= E']. by apply NewRequest_fields in E' as (_ & _ & _ & _ & ?).
    + intros i -> Hm Hu. rewrite (NewRequest_ok _ _ _ _ Hm Hu). by eexists.
  - intros x enc Hx. rewrite (buildRequest_built _ _ _ _ _ _ _ _ Hv).
    unfold built. simpl. by rewrite Hx.
  - intros x cause Hx.
    assert (E : ∀ tm' m' r', buildRequest tm' ctx m' r' ∅ (bodyOther x) w =
                              Some (Err (MarshalError cause), w)).
    { intros. unfold buildRequest. by rewrite Hx. }
    split; [|split; [|split]].
    + unfold buildRequest. by rewrite Hx.
    + intros. unfold CreateProviderVersion, mbind, M_bind. by rewrite E.
    + intros. unfold CreateProviderVersionPlatform, mbind, M_bind. by rewrite E.
    + intros. unfold UploadFile, mbind, M_bind. simpl. by rewrite E.
Qed.

(** C3, as amended.  [NewTFClient] stores as base address the configured
    address with the slashes at both its ends removed, and no later call
    of the package changes it.  In every store reached by such calls,
    [buildRequest] on that client returns, and the URL of a request it
    builds is the base address, a slash and the route, followed, when the
    query map has a key, by a question mark and the encoded query, and by
    nothing when it has none; a request is built whenever the body, the
    context, the method and the URL are in order. *)
Theorem buildRequest_target_url cfg w0 :
  ∃ tc w v,
    NewTFClient cfg w0 = Some (Ok tc, w) ∧
    addr v = strings.Trim (TFAddress cfg) "/" ∧
    ∀ w', later w w' →
      middlewares w' !! m tc = Some v ∧
      ∀ ctx method route query b,
        ∃ res,
          buildRequest (m tc) ctx method route query b w' = Some (res, w') ∧
          (∀ req, res = Ok req →
             http.URL req =
               strings.Trim (TFAddress cfg) "/" +:+ "/" +:+ route +:+
               (if decide (size query = 0%nat) then "" else "?" +:+ url.Encode query)) ∧
          (∀ i rd, ctx = Some i → payload b = Done rd →
             http.validMethod (effective_method method) = true →
             url_Parse_error (target (addr v) route query) = None →
             ∃ req, res = Ok req).
Proof.
  rewrite NewTFClient_run.
  set (v := mkMiddleware (strings.Trim (TFAddress cfg) "/") (TFToken cfg)
              (Some (fresh (dom (clients w0))))).
  eexists _, _, v. split; [reflexivity|]. split; [reflexivity|].
  intros w' Hl.
  assert (Hv : middlewares w' !! fresh (dom (middlewares w0)) = Some v).
  { eapply later_middleware; [exact Hl|]. simpl. apply lookup_insert_eq. }
  split; [exact Hv|].
  intros ctx method route query b. simpl m.
  rewrite (buildRequest_built _ _ _ _ _ _ _ _ Hv). eexists. split; [reflexivity|]. split.
  - intros req E. by apply built_fields in E as (_ & ? & _ & _).
  - intros i rd -> Hp Hm Hu. unfold built. rewrite Hp, (NewRequest_ok _ _ _ _ Hm Hu).
    by eexists.
Qed.

(** C4.  With org acme, registry priv, namespace myorg and provider tool,
    the request [CreateProviderVersion] sends goes to the route
    api/v2/organizations/acme/registry-providers/priv/myorg/tool/versions
    under the base address; with version 1.2.3, the request
    [CreateProviderVersionPlatform] sends goes to that route followed by
    /1.2.3/platforms.  For all parameters the segments stand in this
    order. *)
Theorem provider_routes w tc v c cl ctx data :
  middlewares w !! pm tc = Some v → hc v = Some c → clients w !! c = Some cl →
  routed w v c (pm tc) ctx
    "api/v2/organizations/acme/registry-providers/priv/myorg/tool/versions" data
    (CreateProviderVersion tc ctx "acme" "priv" "myorg" "tool" data w) ∧
  routed w v c (pm tc) ctx
    "api/v2/organizations/acme/registry-providers/priv/myorg/tool/versions/1.2.3/platforms"
    data
    (CreateProviderVersionPlatform tc ctx "acme" "priv" "myorg" "tool" "1.2.3" data w) ∧
  ∀ orgName regName namespace provName provVersion,
    routed w v c (pm tc) ctx
      ("api/v2/organizations/" +:+ orgName +:+ "/registry-providers/" +:+ regName +:+
       "/" +:+ namespace +:+ "/" +:+ provName +:+ "/versions") data
      (CreateProviderVersion tc ctx orgName regName namespace provName data w) ∧
    routed w v c (pm tc) ctx
      ("api/v2/organizations/" +:+ orgName +:+ "/registry-providers/" +:+ regName +:+
       "/" +:+ namespace +:+ "/" +:+ provName +:+ "/versions/" +:+ provVersion +:+
       "/platforms") data
      (CreateProviderVersionPlatform tc ctx orgName regName namespace provName provVersion
         data w).
Proof.
  intros Hv Hc Hcl.
  assert (G : ∀ orgName regName namespace provName provVersion,
    routed w v c (pm tc) ctx
      ("api/v2/organizations/" +:+ orgName +:+ "/registry-providers/" +:+ regName +:+
       "/" +:+ namespace +:+ "/" +:+ provName +:+ "/versions") data
      (CreateProviderVersion tc ctx orgName regName namespace provName data w) ∧
    routed w v c (pm tc) ctx
      ("api/v2/organizations/" +:+ orgName +:+ "/registry-providers/" +:+ regName +:+
       "/" +:+ namespace +:+ "/" +:+ provName +:+ "/versions/" +:+ provVersion +:+
       "/platforms") data
      (CreateProviderVersionPlatform tc ctx orgName regName namespace provName provVersion
         data w)).
  { intros. split.
    - eapply create_contract_routed.
      exact (CreateProviderVersion_contract w tc v c cl ctx orgName regName namespace
               provName data Hv Hc Hcl).
    - eapply create_contract_routed.
      exact (CreateProviderVersionPlatform_contract w tc v c cl ctx orgName regName
               namespace provName provVersion data Hv Hc Hcl). }
  split; [|split].
  - exact (proj1 (G "acme" "priv" "myorg" "tool" "1.2.3")).
  - exact (proj2 (G "acme" "priv" "myorg" "tool" "1.2.3")).
  - exact G.
Qed.

(** C5.  On a middleware in the store whose client is in the store, each
    of [CreateProviderVersion] and [CreateProviderVersionPlatform] sends a
    POST whenever a request can be made at all: when the data marshals,
    the context is not nil and the URL parses, exactly one request goes
    out, a POST to the route under the base address with the encoded data
    as body, Content-Type application/vnd.api+json, Accept
    application/json and Authorization Bearer followed by the token; on
    status 201 the result is the decoded body (the decoding error if the
    body does not decode), on any other status it is an error, and so it
    is when the transport fails.  A body that does not marshal, a nil
    context and a URL that does not parse are the only cases in which
    nothing is sent, and each is returned as its error. *)
Theorem create_operations_contract w tc v c cl ctx orgName regName namespace provName
    provVersion data :
  middlewares w !! pm tc = Some v → hc v = Some c → clients w !! c = Some cl →
  (create_contract w v c (pm tc) ctx
     (buildRoute [pathAPI; pathV2; pathOrganizations; orgName; pathRegistryProviders;
                  regName; namespace; provName; pathVersions])
     data decode_version
     (CreateProviderVersion tc ctx orgName regName namespace provName data w) ∧
   create_sends w v c ctx
     (buildRoute [pathAPI; pathV2; pathOrganizations; orgName; pathRegistryProviders;
                  regName; namespace; provName; pathVersions])
     data decode_version
     (CreateProviderVersion tc ctx orgName regName namespace provName data w)) ∧
  (create_contract w v c (pm tc) ctx
     (buildRoute [pathAPI; pathV2; pathOrganizations; orgName; pathRegistryProviders;
                  regName; namespace; provName; pathVersions; provVersion; pathPlatforms])
     data decode_platform
     (CreateProviderVersionPlatform tc ctx orgName regName namespace provName provVersion
        data w) ∧
   create_sends w v c ctx
     (buildRoute [pathAPI; pathV2; pathOrganizations; orgName; pathRegistryProviders;
                  regName; namespace; provName; pathVersions; provVersion; pathPlatforms])
     data decode_platform
     (CreateProviderVersionPlatform tc ctx orgName regName namespace provName provVersion
        data w)).
Proof.
  intros Hv Hc Hcl. split; split.
  - by eapply CreateProviderVersion_contract.
  - rewrite (CreateProviderVersion_run _ _ _ _ _ _ _ _ _ _ _ Hv Hc Hcl).
    apply create_sends_holds.
  - by eapply CreateProviderVersionPlatform_contract.
  - rewrite (CreateProviderVersionPlatform_run _ _ _ _ _ _ _ _ _ _ _ _ Hv Hc Hcl).
    apply create_sends_holds.
Qed.

(** C6.  On a middleware in the store whose client is in the store,
    [UploadFile] returns, and either no request could be built or it has
    sent one request whose Content-Type is the supplied content type,
    whose Content-Disposition is attachment; filename= followed by the
    quoted filename (the filename between double quotes when it is made of
    plain bytes), and which has no Authorization header; on status 200
    there is no error, on any other status there is one, and so there is
    when the transport fails. *)
Theorem UploadFile_contract w tc v c cl ctx data :
  middlewares w !! um tc = Some v → hc v = Some c → clients w !! c = Some cl →
  ∃ res w', UploadFile tc ctx data w = Some (res, w') ∧
    ((∃ e, buildRequest (um tc) ctx "PUT" (Destination data) ∅ (File data) w =
             Some (Err e, w) ∧ res = Some e ∧ w' = w) ∨
     (∃ req, wire w' = (c, req) :: wire w ∧
        http.Header_ req !! "Content-Type" = Some [ContentType data] ∧
        http.Header_ req !! "Content-Disposition" =
          Some ["attachment; filename=" +:+ strconv.Quote unicode_tables (Filename data)] ∧
        (string_forallb plain_byte (Filename data) = true →
           http.Header_ req !! "Content-Disposition" =
             Some ["attachment; filename=" +:+
                   String strconv.dquote (Filename data +:+ String strconv.dquote "")]) ∧
        http.Header_ req !! "Authorization" = None ∧
        match RoundTrip (wire w) c req with
        | Responded code content =>
            (code = 200 → res = None) ∧ (code ≠ 200 → ∃ e, res = Some e)
        | Refused cause | RedirectFailed _ _ cause =>
            res = Some (TransportError "PUT" (http.URL req) cause)
        end)).
Proof.
  intros Hv Hc Hcl. rewrite (UploadFile_run _ _ _ _ _ _ _ Hv Hc Hcl).
  rewrite (buildRequest_built _ _ _ _ _ _ _ _ Hv). change "PUT" with http.MethodPut.
  destruct (built v ctx http.MethodPut (Destination data) ∅ (File data)) as [req0|e] eqn:Eb.
  - eexists _, _. split; [reflexivity|]. right.
    destruct (built_fields _ _ _ _ _ _ _ Eb) as (Hm & Hu & Hh & _).
    destruct (upload_headers_fields data req0) as (Em & Eu & _ & Hct & Hcd & Hauth).
    exists (upload_headers data req0).
    split; [done|]. split; [done|]. split; [done|]. split; [|split].
    + intros Hp. by rewrite Hcd, (Quote_plain _ _ Hp).
    + by rewrite Hauth, Hh.
    + unfold answer, classify, failure, http.StatusOK.
      destruct (RoundTrip _ _ _) as [code content|cause|code content cause].
      * split.
        -- intros ->. by rewrite decide_False by (intros ?; done).
        -- intros Hne. rewrite decide_True by done.
           destruct (json_Unmarshal_errors content); by eexists.
      * by rewrite Em, Hm.
      * by rewrite Em, Hm.
  - eexists _, _. split; [reflexivity|]. left. by exists e.
Qed.

(** C7.  When a transport error is present, [handleResponse] returns the
    error that wraps it with the method and the URL of the request, and
    the store is as it was: no body has been read or closed, whether a
    response is there or not. *)
Theorem handleResponse_transport_error {T} w req resp cause
    (out : option (string → outcome T)) expected :
  handleResponse req resp (Some cause) out expected w =
    Some (Err (TransportError (http.Method req) (http.URL req) cause), w).
Proof. unfold handleResponse. reflexivity. Qed.

(** C8.  On a response whose status differs from the expected one,
    [handleResponse] returns an error: the structured API error with the
    status and the decoded details when the body decodes as the error
    object of the API, and the generic status-mismatch error with the
    status, the method and the URL, not a decoding error, when the body is
    not valid JSON or is empty. *)
Theorem handleResponse_status_mismatch {T} w req r b
    (out : option (string → outcome T)) expected :
  bodies w !! http.RespBody r = Some b →
  http.StatusCode r ≠ expected →
  ∃ e w',
    handleResponse req (Some r) None out expected w = Some (Err e, w') ∧
    (∀ details, json_Unmarshal_errors (unread b) = Some details →
       e = APIError (http.StatusCode r) details) ∧
    (json_Valid (unread b) = false ∨ unread b = "" →
       e = StatusMismatchError (http.StatusCode r) (http.Method req) (http.URL req)).
Proof.
  intros Hb Hne.
  rewrite (handleResponse_run _ _ _ _ _ _ Hb).
  unfold classify. rewrite decide_True by done.
  destruct (json_Unmarshal_errors (unread b)) as [details|] eqn:E.
  - eexists _, _. split; [reflexivity|]. split.
    + by intros ? [= <-].
    + unfold json_Unmarshal_errors in E. intros [Hv|Hv].
      * by rewrite Hv in E.
      * by rewrite Hv, json_Valid_empty in E.
  - eexists _, _. split; [reflexivity|]. split; [by intros ? [=]|done].
Qed.


(** C10.  On a client whose middleware and HTTP client are in the store,
    [UploadsClient] returns a handle on a new middleware that holds the
    same address and token and a new HTTP client, not in the store before,
    with the default configuration and other than the one of the metadata
    client; the middleware and the HTTP client of the metadata client, and
    everything else in the store, are as they were. *)
Theorem UploadsClient_isolated w tc v c cl :
  middlewares w !! m tc = Some v → hc v = Some c → clients w !! c = Some cl →
  ∃ u w' c',
    UploadsClient tc w = Some (u, w') ∧
    middlewares w' !! um u = Some (mkMiddleware (addr v) (bearerToken v) (Some c')) ∧
    clients w !! c' = None ∧
    clients w' !! c' = Some cleanhttp.DefaultClientValue ∧
    c' ≠ c ∧ um u ≠ m tc ∧
    middlewares w' !! m tc = Some v ∧
    clients w' !! c = Some cl ∧
    (∀ tm, tm ≠ um u → middlewares w' !! tm = middlewares w !! tm) ∧
    (∀ k, k ≠ c' → clients w' !! k = clients w !! k) ∧
    bodies w' = bodies w ∧ wire w' = wire w.
Proof.
  intros Hv Hc Hcl. rewrite (UploadsClient_run _ _ _ Hv).
  assert (Hc' : fresh (dom (clients w)) ≠ c).
  { intros E. rewrite <- E, fresh_client_None in Hcl. discriminate. }
  assert (Hm' : fresh (dom (middlewares w)) ≠ m tc).
  { intros E. rewrite <- E, fresh_middleware_None in Hv. discriminate. }
  eexists _, _, _. split; [reflexivity|]. simpl.
  repeat split.
  - apply lookup_insert_eq.
  - apply fresh_client_None.
  - apply lookup_insert_eq.
  - done.
  - done.
  - by rewrite lookup_insert_ne.
  - by rewrite lookup_insert_ne.
  - intros tm Htm. by rewrite lookup_insert_ne.
  - intros k Hk. by rewrite lookup_insert_ne.
Qed.

End claims.

(** ** The program at work

    Runs of the operations in the concrete environment, by computation. *)

Example create_version_created :
  Demo.result_of (Demo.create_session Demo.registry (Some "{}") emptyWorld) =
    Some (Ok "{data:{id:v1}}") ∧
  Demo.sent (Demo.create_session Demo.registry (Some "{}") emptyWorld) =
    [("POST",
      "https://app.terraform.io/api/v2/organizations/acme/registry-providers/priv/myorg/tool/versions")] ∧
  Demo.closes (Demo.create_session Demo.registry (Some "{}") emptyWorld) = [1%nat].
Proof. repeat split; vm_compute; reflexivity. Qed.

Example create_version_unmarshallable :
  Demo.result_of (Demo.create_session Demo.registry None emptyWorld) =
    Some (Err (MarshalError "json: unsupported type: chan int")) ∧
  Demo.sent (Demo.create_session Demo.registry None emptyWorld) = [].
Proof. split; vm_compute; reflexivity. Qed.

Example create_version_network_down :
  Demo.result_of (Demo.create_session Demo.down (Some "{}") emptyWorld) =
    Some (Err (TransportError "POST"
      "https://app.terraform.io/api/v2/organizations/acme/registry-providers/priv/myorg/tool/versions"
      "dial tcp: connection refused")) ∧
  Demo.closes (Demo.create_session Demo.down (Some "{}") emptyWorld) = [].
Proof. split; vm_compute; reflexivity. Qed.

Example create_version_rejected :
  Demo.result_of (Demo.create_session (Demo.always 422 "{errors:[taken]}") (Some "{}") emptyWorld) =
    Some (Err (APIError 422 ["{errors:[taken]}"])) ∧
  Demo.closes (Demo.create_session (Demo.always 422 "{errors:[taken]}") (Some "{}") emptyWorld) =
    [1%nat].
Proof. split; vm_compute; reflexivity. Qed.

Example create_version_rejected_empty :
  Demo.result_of (Demo.create_session (Demo.always 422 "") (Some "{}") emptyWorld) =
    Some (Err (StatusMismatchError 422 "POST"
      "https://app.terraform.io/api/v2/organizations/acme/registry-providers/priv/myorg/tool/versions")) ∧
  Demo.closes (Demo.create_session (Demo.always 422 "") (Some "{}") emptyWorld) = [1%nat].
Proof. split; vm_compute; reflexivity. Qed.

Example quote_escapes :
  strconv.Quote (λ _, false) ("a" +:+ String strconv.dquote "b") =
    String strconv.dquote
      ("a" +:+ String strconv.backslash (String strconv.dquote "b") +:+
       String strconv.dquote "").
Proof. reflexivity. Qed.

Example trim_both_ends :
  strings.Trim "//https://app.terraform.io///" "/" = "https://app.terraform.io" ∧
  strings.Trim "a//b/" "/" = "a//b" ∧
  strings.Trim "///" "/" = "" ∧
  trim_trailing_slashes "//https://app.terraform.io///" = "//https://app.terraform.io".
Proof. repeat split; reflexivity. Qed.

Example encode_sorted :
  url.Encode {[ "b" := ["x y"; "z"]; "a" := ["1&2"] ]} = "a=1%262&b=x+y&b=z".
Proof. vm_compute. reflexivity. Qed.

(** ** The claims on the concrete environment *)

(** The store and the handle of the concrete environment are those
    [NewTFClient] builds from the empty store. *)
Lemma Demo_world_built :
  NewTFClient Demo.cfg emptyWorld = Some (Ok Demo.tc, Demo.world).
Proof. vm_compute. reflexivity. Qed.

(** C1, which the code breaks.  The claim has the PUT go to the supplied
    destination, used as it is.  The upload to https://storage.example/x
    through the uploads client of a client built for
    https://app.terraform.io/ returns no error, and the one request on the
    wire is a PUT to https://app.terraform.io/https://storage.example/x:
    the base address and a slash stand before the destination. *)
Lemma UploadFile_destination_defect :
  ∃ w req,
    Demo.upload_session emptyWorld = Some (None, w) ∧
    wire w = [(1%nat, req)] ∧
    http.Method req = "PUT" ∧
    http.URL req = "https://app.terraform.io/https://storage.example/x" ∧
    http.URL req ≠ Destination Demo.upload.
Proof.
  eexists _, _. split; [vm_compute; reflexivity|].
  split; [reflexivity|]. split; [reflexivity|]. split; [reflexivity|].
  discriminate.
Qed.

(** Against C3 as stated: for the address /registry.example/ the request is
    built for registry.example/api/v2/ping, the leading slash being removed
    too, and not for the address without its trailing slashes followed by
    the route. *)
Lemma base_address_counterexample :
  ∃ w req,
    Demo.ping_session emptyWorld = Some (Ok req, w) ∧
    http.URL req = "registry.example/api/v2/ping" ∧
    http.URL req ≠
      trim_trailing_slashes (TFAddress Demo.slashed) +:+ "/" +:+ "api/v2/ping".
Proof.
  eexists _, _. split; [vm_compute; reflexivity|].
  split; [reflexivity|]. discriminate.
Qed.

(** [buildRequest_body_dispatch] in the concrete environment: a byte slice
    goes through as it is, a channel is refused. *)
Lemma buildRequest_body_dispatch_witness :
  middlewares Demo.world !! 0%nat = Some Demo.middleware ∧
  buildRequest (H:=Demo.rt) 0%nat (Some 0%nat) "PUT" "x" ∅ (bodyBytes "PK") Demo.world =
    Some (Ok (http.mkRequest (Some 0%nat) "PUT" "https://app.terraform.io/x" ∅ (Some "PK")),
          Demo.world) ∧
  buildRequest (H:=Demo.rt) 0%nat (Some 0%nat) "PUT" "x" ∅ (bodyOther Demo.channel) Demo.world =
    Some (Err (MarshalError "json: unsupported type: chan int"), Demo.world).
Proof.
  split; [reflexivity|].
  destruct (buildRequest_body_dispatch (H:=Demo.rt) Demo.world 0%nat Demo.middleware
              (Some 0%nat) "PUT" "x" ∅ eq_refl) as (Hbytes & _ & Hfail).
  split.
  - destruct (Hbytes (bodyBytes "PK") "PK" (or_intror eq_refl)) as [E _].
    rewrite E. reflexivity.
  - exact (proj1 (Hfail Demo.channel "json: unsupported type: chan int" eq_refl)).
Defined.

(** [buildRequest_target_url] in the concrete environment, with one query
    parameter. *)
Lemma buildRequest_target_url_witness :
  ∃ tc w v,
    NewTFClient Demo.cfg emptyWorld = Some (Ok tc, w) ∧
    addr v = "https://app.terraform.io" ∧
    middlewares w !! m tc = Some v ∧
    ∃ res, buildRequest (H:=Demo.rt) (m tc) (Some 0%nat) "GET" "api/v2/ping"
             {[ "page" := ["2"] ]} bodyNil w = Some (res, w) ∧
           ∀ req, res = Ok req →
             http.URL req = "https://app.terraform.io/api/v2/ping?page=2".
Proof.
  destruct (buildRequest_target_url (H:=Demo.rt) Demo.cfg emptyWorld)
    as (tc & w & v & E & Ha & Hlater).
  exists tc, w, v. split; [exact E|]. split; [exact Ha|].
  destruct (Hlater w (later_now w)) as [Hv Hb]. split; [exact Hv|].
  destruct (Hb (Some 0%nat) "GET" "api/v2/ping" {[ "page" := ["2"] ]} bodyNil)
    as (res & Er & Hu & _).
  exists res. split; [exact Er|]. exact Hu.
Defined.

(** [provider_routes] on the store of the concrete environment. *)
Lemma provider_routes_witness :
  middlewares Demo.world !! 0%nat = Some Demo.middleware ∧
  hc Demo.middleware = Some 0%nat ∧
  clients Demo.world !! 0%nat = Some cleanhttp.DefaultClientValue ∧
  routed (H:=Demo.rt) Demo.world Demo.middleware 0%nat 0%nat (Some 0%nat)
    "api/v2/organizations/acme/registry-providers/priv/myorg/tool/versions" (Demo.record "{}")
    (CreateProviderVersion (H:=Demo.rt) (ProviderClient Demo.tc) (Some 0%nat)
       "acme" "priv" "myorg" "tool" (Demo.record "{}") Demo.world) ∧
  routed (H:=Demo.rt) Demo.world Demo.middleware 0%nat 0%nat (Some 0%nat)
    "api/v2/organizations/acme/registry-providers/priv/myorg/tool/versions/1.2.3/platforms"
    (Demo.record "{}")
    (CreateProviderVersionPlatform (H:=Demo.rt) (ProviderClient Demo.tc) (Some 0%nat)
       "acme" "priv" "myorg" "tool" "1.2.3" (Demo.record "{}") Demo.world).
Proof.
  split; [reflexivity|]. split; [reflexivity|]. split; [reflexivity|].
  destruct (provider_routes (H:=Demo.rt) Demo.world (ProviderClient Demo.tc)
              Demo.middleware 0%nat cleanhttp.DefaultClientValue (Some 0%nat) (Demo.record "{}")
              eq_refl eq_refl eq_refl) as (Hv & Hp & _).
  split; [exact Hv | exact Hp].
Defined.

(** [create_operations_contract] on the store of the concrete
    environment: the version is created, and the one request on the wire
    is the POST of the claim. *)
Lemma create_operations_contract_witness :
  middlewares Demo.world !! 0%nat = Some Demo.middleware ∧
  hc Demo.middleware = Some 0%nat ∧
  clients Demo.world !! 0%nat = Some cleanhttp.DefaultClientValue ∧
  ∃ w' req,
    CreateProviderVersion (H:=Demo.rt) (ProviderClient Demo.tc) (Some 0%nat)
      "acme" "priv" "myorg" "tool" (Demo.record "{}") Demo.world =
      Some (Ok "{data:{id:v1}}", w') ∧
    wire w' = [(0%nat, req)] ∧
    http.Method req = "POST" ∧
    http.URL req =
      "https://app.terraform.io/api/v2/organizations/acme/registry-providers/priv/myorg/tool/versions" ∧
    http.Body req = Some "{}" ∧
    http.Header_ req !! "Content-Type" = Some ["application/vnd.api+json"] ∧
    http.Header_ req !! "Accept" = Some ["application/json"] ∧
    http.Header_ req !! "Authorization" = Some ["Bearer s3cr3t"].
Proof.
  split; [reflexivity|]. split; [reflexivity|]. split; [reflexivity|].
  destruct (create_operations_contract (H:=Demo.rt) Demo.world (ProviderClient Demo.tc)
              Demo.middleware 0%nat cleanhttp.DefaultClientValue (Some 0%nat)
              "acme" "priv" "myorg" "tool" "1.2.3" (Demo.record "{}")
              eq_refl eq_refl eq_refl) as [[_ (_ & _ & _ & Hsend)] _].
  destruct (Hsend "{}" 0%nat eq_refl eq_refl eq_refl)
    as (res & w' & req & E & Hw & _ & Hm & Hu & Hb & Hct & Hacc & Hauth & Hres).
  exists w', req.
  assert (Hreply : RoundTrip (GoRuntime:=Demo.rt) (wire Demo.world) 0%nat req =
                   Responded 201 "{data:{id:v1}}").
  { simpl. unfold Demo.registry. by rewrite Hm. }
  rewrite Hreply in Hres. subst res.
  split; [exact E|]. split; [exact Hw|]. split; [exact Hm|]. split; [exact Hu|].
  split; [exact Hb|]. split; [exact Hct|]. split; [exact Hacc | exact Hauth].
Defined.

(** [UploadFile_contract] on the store of the concrete environment: the
    upload succeeds and the request carries the headers of the example of
    the spec. *)
Lemma UploadFile_contract_witness :
  middlewares Demo.world !! 0%nat = Some Demo.middleware ∧
  hc Demo.middleware = Some 0%nat ∧
  clients Demo.world !! 0%nat = Some cleanhttp.DefaultClientValue ∧
  ∃ res w', UploadFile (H:=Demo.rt) (mkTFUploadsClient 0) (Some 0%nat) Demo.upload Demo.world
              = Some (res, w') ∧ res = None ∧
    ∃ req, wire w' = [(0%nat, req)] ∧
      http.Header_ req !! "Content-Type" = Some ["application/zip"] ∧
      http.Header_ req !! "Content-Disposition" =
        Some ["attachment; filename=" +:+
              String strconv.dquote
                ("tool_1.2.3_linux_amd64.zip" +:+ String strconv.dquote "")] ∧
      http.Header_ req !! "Authorization" = None.
Proof.
  split; [reflexivity|]. split; [reflexivity|]. split; [reflexivity|].
  destruct (UploadFile_contract (H:=Demo.rt) Demo.world (mkTFUploadsClient 0)
              Demo.middleware 0%nat cleanhttp.DefaultClientValue (Some 0%nat) Demo.upload
              eq_refl eq_refl eq_refl) as (res & w' & E & Hcases).
  exists res, w'. split; [exact E|].
  destruct Hcases as [(e & Hb & _) | (req & Hw & Hct & _ & Hcd & Hauth & Hst)].
  - vm_compute in Hb. discriminate Hb.
  - assert (Hreq : req = upload_headers (H:=Demo.rt) Demo.upload
             (http.mkRequest (Some 0%nat) "PUT"
                "https://app.terraform.io/https://storage.example/x" ∅ (Some "PK"))).
    { vm_compute in E. injection E as _ <-. simpl in Hw. by injection Hw as <-. }
    subst req. split.
    + apply (proj1 Hst). reflexivity.
    + eexists. split; [exact Hw|]. split; [exact Hct|].
      split; [exact (Hcd eq_refl) | exact Hauth].
Defined.

(** [handleResponse_status_mismatch] on status 422 with an empty body. *)
Lemma handleResponse_status_mismatch_witness :
  bodies (Demo.answered "") !! 0%nat = Some (mkReadCloser "" 0) ∧
  422 ≠ 200 ∧
  ∃ w', handleResponse (H:=Demo.rt) (T:=unit) Demo.put_request
          (Some (http.mkResponse 422 0)) None None 200 (Demo.answered "") =
        Some (Err (StatusMismatchError 422 "PUT" "https://app.terraform.io/x"), w').
Proof.
  split; [reflexivity|]. split; [lia|].
  destruct (handleResponse_status_mismatch (H:=Demo.rt) (T:=unit) (Demo.answered "")
              Demo.put_request (http.mkResponse 422 0) (mkReadCloser "" 0) None 200
              eq_refl ltac:(simpl; lia)) as (e & w' & E & _ & Hmis).
  exists w'. rewrite E. by rewrite (Hmis (or_intror eq_refl)).
Defined.



(** [UploadsClient_isolated] on the store of the concrete environment. *)
Lemma UploadsClient_isolated_witness :
  middlewares Demo.world !! 0%nat = Some Demo.middleware ∧
  hc Demo.middleware = Some 0%nat ∧
  clients Demo.world !! 0%nat = Some cleanhttp.DefaultClientValue ∧
  ∃ u w' c',
    UploadsClient Demo.tc Demo.world = Some (u, w') ∧
    middlewares w' !! um u =
      Some (mkMiddleware "https://app.terraform.io" "s3cr3t" (Some c')) ∧
    clients w' !! c' = Some cleanhttp.DefaultClientValue ∧
    c' ≠ 0%nat ∧
    middlewares w' !! 0%nat = Some Demo.middleware.
Proof.
  split; [reflexivity|]. split; [reflexivity|]. split; [reflexivity|].
  destruct (UploadsClient_isolated Demo.world Demo.tc Demo.middleware 0%nat
              cleanhttp.DefaultClientValue eq_refl eq_refl eq_refl)
    as (u & w' & c' & E & Hu & _ & Hd & Hne & _ & Hm & _).
  exists u, w', c'. repeat split; assumption.
Defined.

(** * Further properties of the program *)

(** ** Trimming *)

Lemma string_forallb_app p a b :
  string_forallb p (a +:+ b) = string_forallb p a && string_forallb p b.
Proof.
  induction a as [|x a IH]; [done|].
  rewrite string_app_cons. cbn [string_forallb]. by rewrite IH, andb_assoc.
Qed.

Lemma trimLeftByte_decomp s c :
  ∃ n, s = string_repeat c n +:+ strings.trimLeftByte s c ∧
       string_head (strings.trimLeftByte s c) ≠ Some c.
Proof.
  induction s as [|a s (n & E & Hh)].
  - by exists 0%nat.
  - cbn [strings.trimLeftByte]. destruct (decide (a = c)) as [->|Hne].
    + exists (S n). cbn [string_repeat]. rewrite string_app_cons, <- E. done.
    + exists 0%nat. split; [done|]. simpl. congruence.
Qed.

Lemma trimRightByte_decomp s c :
  ∃ k, s = strings.trimRightByte s c +:+ string_repeat c k ∧
       string_last (strings.trimRightByte s c) ≠ Some c.
Proof.
  induction s as [|a s (k & E & Hl)].
  - by exists 0%nat.
  - cbn [strings.trimRightByte].
    destruct (strings.trimRightByte s c) as [|b t] eqn:Et.
    + destruct (decide (a = c)) as [->|Hne].
      * exists (S k). cbn [string_repeat]. by rewrite E.
      * exists k. rewrite E. split; [done|]. simpl. congruence.
    + exists k. split.
      * by rewrite string_app_cons, <- E.
      * exact Hl.
Qed.

Lemma string_last_trimLeft s c :
  strings.trimLeftByte s c = "" ∨
  string_last (strings.trimLeftByte s c) = string_last s.
Proof.
  induction s as [|a s IH]; [by left|].
  cbn [strings.trimLeftByte]. destruct (decide (a = c)) as [->|Hne]; [|by right].
  destruct IH as [E|E]; [by left|].
  destruct s as [|b t]; [by left|].
  right. by rewrite E.
Qed.

Lemma Trim_decomp s c :
  ∃ n k, s = string_repeat c n +:+ strings.Trim s c +:+ string_repeat c k ∧
         string_head (strings.Trim s c) ≠ Some c ∧
         string_last (strings.Trim s c) ≠ Some c.
Proof.
  unfold strings.Trim.
  destruct (trimRightByte_decomp s c) as (k & Er & Hl).
  destruct (trimLeftByte_decomp (strings.trimRightByte s c) c) as (n & El & Hh).
  exists n, k. split; [|split; [exact Hh|]].
  - rewrite <- string_app_assoc, <- El. exact Er.
  - destruct (string_last_trimLeft (strings.trimRightByte s c) c) as [E|E].
    + by rewrite E.
    + by rewrite E.
Qed.

Lemma trimRightByte_id s c :
  string_last s ≠ Some c → strings.trimRightByte s c = s.
Proof.
  induction s as [|a s IH]; [done|]. intros Hl.
  cbn [strings.trimRightByte]. destruct s as [|b t].
  - simpl. destruct (decide (a = c)) as [->|]; [by destruct Hl | done].
  - rewrite IH by exact Hl. done.
Qed.

Lemma trimLeftByte_id s c :
  string_head s ≠ Some c → strings.trimLeftByte s c = s.
Proof.
  destruct s as [|a s]; [done|]. simpl. intros Hh.
  destruct (decide (a = c)) as [->|]; [by destruct Hh | done].
Qed.

Lemma Trim_id s c :
  string_head s ≠ Some c → string_last s ≠ Some c → strings.Trim s c = s.
Proof.
  intros Hh Hl. unfold strings.Trim. by rewrite trimRightByte_id, trimLeftByte_id.
Qed.

(** ** Escaping and quoting *)

Lemma Join_forallb p elems sep :
  Forall (λ e, string_forallb p e = true) elems →
  string_forallb p sep = true →
  string_forallb p (strings.Join elems sep) = true.
Proof.
  intros Hall Hsep. induction Hall as [|e rest He _ IH]; [done|].
  cbn [strings.Join]. destruct rest as [|e' rest']; [done|].
  by rewrite !string_forallb_app, He, Hsep, IH.
Qed.

Lemma escapeByte_query_bytes c : string_forallb query_byte (url.escapeByte c) = true.
Proof. destruct c as [[] [] [] [] [] [] [] []]; vm_compute; reflexivity. Qed.

Lemma QueryEscape_query_bytes s : string_forallb query_byte (url.QueryEscape s) = true.
Proof.
  unfold url.QueryEscape. induction s as [|c s IH]; [done|].
  cbn [string_concat_map]. by rewrite string_forallb_app, escapeByte_query_bytes, IH.
Qed.

Lemma Encode_query_bytes (v : url.Values) : string_forallb query_byte (url.Encode v) = true.
Proof.
  unfold url.Encode. apply Join_forallb; [|done].
  apply Forall_forall. intros e (k & He & _)%list_elem_of_bind.
  unfold url.encodeKey in He. apply list_elem_of_fmap in He as (x & -> & _).
  by rewrite !string_forallb_app, !QueryEscape_query_bytes.
Qed.

(** An encoded query with no value at all is empty. *)
Lemma Encode_no_values (v : url.Values) :
  (∀ k vs, v !! k = Some vs → vs = []) → url.Encode v = "".
Proof.
  intros Hempty. unfold url.Encode.
  assert (E : merge_sort String.le (map_to_list v).*1 ≫=
                (λ k, url.encodeKey k (default [] (v !! k))) = []).
  { induction (merge_sort String.le (map_to_list v).*1) as [|k ks IH]; [done|].
    rewrite bind_cons, IH.
    destruct (v !! k) as [vs|] eqn:Hk; [by rewrite (Hempty _ _ Hk) | done]. }
  by rewrite E.
Qed.

Lemma hex_digit_printable z : string_forallb printable (hex_digit strconv.lowerhex z) = true.
Proof.
  unfold hex_digit. generalize (Z.to_nat z). intros n.
  do 17 (destruct n as [|n]; [reflexivity|]). reflexivity.
Qed.

Lemma hex_nibbles_printable r shifts :
  string_forallb printable (strconv.hex_nibbles r shifts) = true.
Proof.
  unfold strconv.hex_nibbles. apply Join_forallb; [|done].
  apply Forall_forall. intros e (s & -> & _)%list_elem_of_fmap.
  apply hex_digit_printable.
Qed.

Lemma appendEscapedRune_printable tbl r enc :
  (strconv.IsPrint tbl r = true → string_forallb printable enc = true) →
  string_forallb printable (strconv.appendEscapedRune tbl r enc) = true.
Proof.
  intros Henc. unfold strconv.appendEscapedRune.
  destruct ((r =? 34) || (r =? 92)) eqn:Eq.
  { apply orb_prop in Eq as [->%Z.eqb_eq | ->%Z.eqb_eq]; reflexivity. }
  destruct (strconv.IsPrint tbl r); [by apply Henc|].
  destruct (r =? 7); [reflexivity|]. destruct (r =? 8); [reflexivity|].
  destruct (r =? 12); [reflexivity|]. destruct (r =? 10); [reflexivity|].
  destruct (r =? 13); [reflexivity|]. destruct (r =? 9); [reflexivity|].
  destruct (r =? 11); [reflexivity|].
  assert (Hesc : ∀ x y, string_forallb printable (strconv.esc x) = true →
                        string_forallb printable (strconv.esc x +:+ strconv.hex_nibbles y
                          [4; 0]) = true).
  { intros x y Hx. by rewrite string_forallb_app, Hx, hex_nibbles_printable. }
  destruct ((r <? 32) || (r =? 0x7F)).
  { by rewrite string_forallb_app, hex_nibbles_printable. }
  destruct (negb (utf8.ValidRune r)).
  { by rewrite string_forallb_app, hex_nibbles_printable. }
  destruct (r <? 0x10000); by rewrite string_forallb_app, hex_nibbles_printable.
Qed.

Lemma high_byte_printable c : (0x80 <=? byte_val c) = true → printable c = true.
Proof.
  unfold printable, is_control. intros Hc%Z.leb_le.
  apply negb_true_iff, orb_false_iff. split; [apply Z.ltb_ge | apply Z.eqb_neq]; lia.
Qed.

Lemma first_high s0 sz lo hi : utf8.first s0 = Some (sz, lo, hi) → 0x80 <= lo.
Proof.
  unfold utf8.first.
  repeat match goal with
         | |- context [if ?b then _ else _] => destruct b
         end; intros [= <- <- <-]; lia.
Qed.

(** The three outcomes of decoding at a byte [c0]: an invalid byte, one
    ASCII byte, or an encoding whose bytes are all above ASCII. *)
Lemma DecodeRune_cases c0 t :
  let '(r, width) := utf8.DecodeRuneInString (String c0 t) in
  (width = 1%nat ∧ r = utf8.RuneError) ∨
  (width = 1%nat ∧ r = byte_val c0 ∧ r < 0x80) ∨
  string_forallb (λ c, 0x80 <=? byte_val c) (string_take width (String c0 t)) = true.
Proof.
  unfold utf8.DecodeRuneInString.
  destruct (byte_val c0 <? 0x80) eqn:E0.
  { right; left. apply Z.ltb_lt in E0. done. }
  apply Z.ltb_ge in E0.
  destruct (utf8.first (byte_val c0)) as [[[sz lo] hi]|] eqn:Ef; [|by left].
  apply first_high in Ef.
  destruct (String.length (String c0 t) <? sz)%nat; [by left|].
  destruct t as [|c1 t1]; [by left|].
  destruct (in_range lo hi (byte_val c1)) eqn:E1; [|by left].
  assert (H1 : (0x80 <=? byte_val c1) = true).
  { unfold in_range in E1. apply andb_prop in E1 as [?%Z.leb_le _]. apply Z.leb_le. lia. }
  assert (H0 : (0x80 <=? byte_val c0) = true) by by apply Z.leb_le.
  cbn [negb]. destruct (sz <=? 2)%nat.
  { right; right. cbn [string_take string_forallb]. by rewrite H0, H1. }
  destruct t1 as [|c2 t2]; [by left|].
  destruct (utf8.cont c2) eqn:E2; [|by left].
  assert (H2 : (0x80 <=? byte_val c2) = true).
  { unfold utf8.cont, in_range in E2. by apply andb_prop in E2 as [? _]. }
  cbn [negb]. destruct (sz <=? 3)%nat.
  { right; right. cbn [string_take string_forallb]. by rewrite H0, H1, H2. }
  destruct t2 as [|c3 t3]; [by left|].
  destruct (utf8.cont c3) eqn:E3; [|by left].
  assert (H3 : (0x80 <=? byte_val c3) = true).
  { unfold utf8.cont, in_range in E3. by apply andb_prop in E3 as [? _]. }
  right; right. cbn [negb string_take string_forallb]. by rewrite H0, H1, H2, H3.
Qed.

Lemma string_forallb_impl (p q : ascii → bool) s :
  (∀ c, p c = true → q c = true) → string_forallb p s = true → string_forallb q s = true.
Proof.
  intros Hpq. induction s as [|c s IH]; [done|]. cbn [string_forallb].
  intros [Hc Hs]%andb_prop. by rewrite (Hpq _ Hc), IH.
Qed.

Lemma quoteRunes_printable tbl s : ∀ skip,
  string_forallb printable (strconv.quoteRunes tbl skip s) = true.
Proof.
  induction s as [|c t IH]; [by intros []|].
  intros [|k]; [|apply IH].
  cbn [strconv.quoteRunes].
  pose proof (DecodeRune_cases c t) as Hd.
  destruct (utf8.DecodeRuneInString (String c t)) as [r width].
  rewrite string_forallb_app, IH, andb_true_r.
  destruct Hd as [[-> ->] | [(-> & -> & Hlt) | Hhigh]].
  - rewrite Nat.eqb_refl, Z.eqb_refl. cbn [andb].
    by rewrite string_forallb_app, hex_nibbles_printable.
  - assert (Hne : (byte_val c =? utf8.RuneError) = false).
    { apply Z.eqb_neq. unfold utf8.RuneError. lia. }
    rewrite Hne, andb_false_r. apply appendEscapedRune_printable.
    unfold strconv.IsPrint. cbn [string_take string_forallb].
    destruct (byte_val c <=? 0xFF) eqn:E; [|apply Z.leb_gt in E; lia].
    destruct (in_range 0x20 0x7E (byte_val c)) eqn:Er.
    + intros _. unfold in_range in Er. apply andb_prop in Er as [?%Z.leb_le ?%Z.leb_le].
      unfold printable, is_control. rewrite andb_true_r.
      apply negb_true_iff, orb_false_iff. split; [apply Z.ltb_ge | apply Z.eqb_neq]; lia.
    + destruct (in_range 0xA1 0xFF (byte_val c)) eqn:Er2; [|done].
      unfold in_range in Er2. apply andb_prop in Er2 as [?%Z.leb_le _]. lia.
  - destruct ((width =? 1)%nat && (r =? utf8.RuneError)).
    + by rewrite string_forallb_app, hex_nibbles_printable.
    + apply appendEscapedRune_printable. intros _.
      eapply string_forallb_impl; [apply high_byte_printable | exact Hhigh].
Qed.

Lemma Quote_printable tbl s : string_forallb printable (strconv.Quote tbl s) = true.
Proof.
  unfold strconv.Quote. rewrite string_forallb_app. cbn [string_forallb].
  by rewrite quoteRunes_printable.
Qed.

(** ** Building and dispatching, case by case *)

Section dispatch.
Context `{GoRuntime}.

Lemma buildRequest_cases w tm ctx method route query b :
  buildRequest tm ctx method route query b w =
    match payload b with
    | Failed err => Some (Err (MarshalError err), w)
    | Done rd =>
        match middlewares w !! tm with
        | Some v =>
            Some (NewRequestWithContext ctx method (target (addr v) route query) rd, w)
        | None => None
        end
    end.
Proof.
  destruct (middlewares w !! tm) as [v|] eqn:Hv.
  - rewrite (buildRequest_built _ _ _ _ _ _ _ _ Hv). unfold built.
    by destruct (payload b).
  - unfold buildRequest, payload.
    destruct b as [|content|bs|x]; try destruct (json_Marshal x); try done;
      unfold buildURL; bind_step; bind_step; by rewrite (load_panics _ _ Hv).
Qed.

Lemma do_cases w tm req :
  do tm req w =
    match middlewares w !! tm with
    | Some v =>
        match hc v with
        | Some c => Client_Do c req w
        | None => None
        end
    | None => None
    end.
Proof.
  unfold do. bind_step. destruct (middlewares w !! tm) as [v|] eqn:Hv.
  - rewrite (load_run _ _ _ Hv). by destruct (hc v).
  - by rewrite (load_panics _ _ Hv).
Qed.

Lemma Client_Do_panics w c req : clients w !! c = None → Client_Do c req w = None.
Proof. intros Hc. unfold Client_Do. run_step. by rewrite Hc. Qed.

Lemma do_panics w tm v req :
  middlewares w !! tm = Some v →
  (hc v = None ∨ ∃ c, hc v = Some c ∧ clients w !! c = None) →
  do tm req w = None.
Proof.
  intros Hv Hbad. rewrite do_cases, Hv.
  destruct Hbad as [-> | (c & -> & Hc)]; [done | by apply Client_Do_panics].
Qed.

Lemma string_prefix_app (a b : string) : String.prefix a (a +:+ b) = true.
Proof.
  induction a as [|x a IH]; [by destruct b|].
  rewrite string_app_cons. simpl. by destruct (ascii_dec x x).
Qed.

Lemma target_under_base base route query :
  String.prefix (base +:+ "/") (target base route query) = true.
Proof. unfold target. rewrite <- string_app_assoc. apply string_prefix_app. Qed.

Local Ltac no_dispatch Hv :=
  bind_step; rewrite (buildRequest_built _ _ _ _ _ _ _ _ Hv);
  destruct (built _ _ _ _ _ _) as [req0|e]; [|intros [= _ <-]; by left];
  repeat (first [rewrite (load_run _ _ _ Hv) | bind_step]);
  rewrite (do_panics _ _ _ _ Hv); [done | eauto].

Lemma CreateProviderVersion_sent w tc ctx o r n p data res w' :
  CreateProviderVersion tc ctx o r n p data w = Some (res, w') →
  sent_under_base w w' (pm tc).
Proof.
  destruct (middlewares w !! pm tc) as [v|] eqn:Hv.
  - destruct (hc v) as [c|] eqn:Hc; [destruct (clients w !! c) as [cl|] eqn:Hcl|].
    + rewrite (CreateProviderVersion_run _ _ _ _ _ _ _ _ _ _ _ Hv Hc Hcl).
      destruct (built _ _ _ _ _ _) as [req0|e] eqn:Eb; intros [= _ <-]; [|by left].
      right. exists v, c, cl, (api_headers v req0). repeat (split; [done|]).
      destruct (api_headers_fields v req0) as (_ & -> & _).
      destruct (built_fields _ _ _ _ _ _ _ Eb) as (_ & -> & _).
      apply target_under_base.
    + unfold CreateProviderVersion. no_dispatch Hv.
    + unfold CreateProviderVersion. no_dispatch Hv.
  - unfold CreateProviderVersion. bind_step. rewrite buildRequest_cases, Hv.
    destruct (payload _); [done | intros [= _ <-]; by left].
Qed.

Lemma CreateProviderVersionPlatform_sent w tc ctx o r n p pv data res w' :
  CreateProviderVersionPlatform tc ctx o r n p pv data w = Some (res, w') →
  sent_under_base w w' (pm tc).
Proof.
  destruct (middlewares w !! pm tc) as [v|] eqn:Hv.
  - destruct (hc v) as [c|] eqn:Hc; [destruct (clients w !! c) as [cl|] eqn:Hcl|].
    + rewrite (CreateProviderVersionPlatform_run _ _ _ _ _ _ _ _ _ _ _ _ Hv Hc Hcl).
      destruct (built _ _ _ _ _ _) as [req0|e] eqn:Eb; intros [= _ <-]; [|by left].
      right. exists v, c, cl, (api_headers v req0). repeat (split; [done|]).
      destruct (api_headers_fields v req0) as (_ & -> & _).
      destruct (built_fields _ _ _ _ _ _ _ Eb) as (_ & -> & _).
      apply target_under_base.
    + unfold CreateProviderVersionPlatform. no_dispatch Hv.
    + unfold CreateProviderVersionPlatform. no_dispatch Hv.
  - unfold CreateProviderVersionPlatform. bind_step. rewrite buildRequest_cases, Hv.
    destruct (payload _); [done | intros [= _ <-]; by left].
Qed.

Lemma UploadFile_sent w tc ctx data res w' :
  UploadFile tc ctx data w = Some (res, w') → sent_under_base w w' (um tc).
Proof.
  destruct (middlewares w !! um tc) as [v|] eqn:Hv.
  - destruct (hc v) as [c|] eqn:Hc; [destruct (clients w !! c) as [cl|] eqn:Hcl|].
    + rewrite (UploadFile_run _ _ _ _ _ _ _ Hv Hc Hcl).
      destruct (built _ _ _ _ _ _) as [req0|e] eqn:Eb; intros [= _ <-]; [|by left].
      right. exists v, c, cl, (upload_headers data req0). repeat (split; [done|]).
      destruct (upload_headers_fields data req0) as (_ & -> & _).
      destruct (built_fields _ _ _ _ _ _ _ Eb) as (_ & -> & _).
      apply target_under_base.
    + unfold UploadFile. no_dispatch Hv.
    + unfold UploadFile. no_dispatch Hv.
  - unfold UploadFile. bind_step. rewrite buildRequest_cases, Hv.
    destruct (payload _); [done | intros [= _ <-]; by left].
Qed.


End dispatch.

(** ** What every reachable store satisfies *)

Section store_invariants.
Context `{GoRuntime}.

Lemma store_ok_empty : store_ok emptyWorld.
Proof. intros tm v Hv. simpl in Hv. by rewrite lookup_empty in Hv. Qed.


(** A middleware added to the store with a new default client keeps the
    store in order. *)
Lemma store_ok_insert w v :
  store_ok w →
  string_head (addr v) ≠ Some "/"%char → string_last (addr v) ≠ Some "/"%char →
  store_ok
    (mkWorld (<[fresh (dom (clients w)) := cleanhttp.DefaultClientValue]> (clients w))
       (<[fresh (dom (middlewares w)) := set_hc v (Some (fresh (dom (clients w))))]>
          (middlewares w))
       (bodies w) (wire w)).
Proof.
  intros Hok Hh Hl tm v'. simpl.
  destruct (decide (tm = fresh (dom (middlewares w)))) as [->|Hne].
  - rewrite lookup_insert_eq. intros [= <-]. simpl. split; [|done].
    eexists. split; [reflexivity|]. apply lookup_insert_eq.
  - rewrite lookup_insert_ne by done. intros Hv'.
    destruct (Hok _ _ Hv') as ((c & Hc & Hcl) & ? & ?). split; [|done].
    exists c. split; [done|]. rewrite lookup_insert_ne; [done|].
    intros E. rewrite <- E, fresh_client_None in Hcl. discriminate.
Qed.

Lemma NewTFClient_store_ok cfg w r w' :
  store_ok w → NewTFClient cfg w = Some (r, w') → store_ok w'.
Proof.
  intros Hok. rewrite NewTFClient_run. intros [= _ <-].
  destruct (Trim_decomp (TFAddress cfg) "/") as (n & k & _ & Hh & Hl).
  exact (store_ok_insert w (mkMiddleware (strings.Trim (TFAddress cfg) "/") (TFToken cfg) None)
           Hok Hh Hl).
Qed.

Lemma UploadsClient_cases w tc u w' :
  UploadsClient tc w = Some (u, w') →
  ∃ v, (middlewares w !! m tc = Some v ∨ v = zeroMiddleware) ∧
    u = mkTFUploadsClient (fresh (dom (middlewares w))) ∧
    w' = mkWorld (<[fresh (dom (clients w)) := cleanhttp.DefaultClientValue]> (clients w))
           (<[fresh (dom (middlewares w)) := set_hc v (Some (fresh (dom (clients w))))]>
              (middlewares w))
           (bodies w) (wire w).
Proof.
  destruct (middlewares w !! m tc) as [v|] eqn:Hv.
  - rewrite (UploadsClient_run _ _ _ Hv). intros [= <- <-]. exists v. eauto.
  - unfold UploadsClient, copy.
    bind_step. rewrite DefaultClient_run.
    bind_step. bind_step. rewrite new_middleware_run.
    bind_step. simpl middlewares.
    destruct (decide (m tc = fresh (dom (middlewares w)))) as [E|Hne].
    + erewrite load_run by (simpl; rewrite E; apply lookup_insert_eq).
      bind_step. erewrite store_run by (simpl; apply lookup_insert_eq).
      bind_step. erewrite update_run by (simpl; apply lookup_insert_eq).
      simpl. intros [= <- <-]. exists zeroMiddleware. split; [by right|].
      split; [done|]. by rewrite !insert_insert_eq.
    + rewrite load_panics; [done|]. simpl. by rewrite lookup_insert_ne.
Qed.

Lemma UploadsClient_store_ok tc w u w' :
  store_ok w → UploadsClient tc w = Some (u, w') → store_ok w'.
Proof.
  intros Hok (v & Hv & _ & ->)%UploadsClient_cases.
  apply store_ok_insert; [done| |].
  - destruct Hv as [Hv | ->]; [by destruct (Hok _ _ Hv) as (_ & ? & _) | done].
  - destruct Hv as [Hv | ->]; [by destruct (Hok _ _ Hv) as (_ & _ & ?) | done].
Qed.

Lemma keeps_store_ok {A} (op : M A) w a w' :
  keeps_config op → op w = Some (a, w') → store_ok w → store_ok w'.
Proof.
  intros Hk E Hok. destruct (Hk _ _ _ E) as [Em Ec].
  intros tm v. rewrite Em, Ec. apply Hok.
Qed.

Lemma exec_store_ok c w w' : exec c w = Some ((), w') → store_ok w → store_ok w'.
Proof.
  destruct c; unfold exec, mbind, M_bind;
    match goal with |- context [match ?op w with _ => _ end] =>
      destruct (op w) as [[a w1]|] eqn:E; [|done] end;
    intros [= <-] Hok.
  - by eapply NewTFClient_store_ok.
  - by eapply UploadsClient_store_ok.
  - eapply keeps_store_ok; [apply keeps_CreateProviderVersion | exact E | done].
  - eapply keeps_store_ok; [apply keeps_CreateProviderVersionPlatform | exact E | done].
  - eapply keeps_store_ok; [apply keeps_UploadFile | exact E | done].
Qed.




Lemma later_store_ok w w' : later w w' → store_ok w → store_ok w'.
Proof. induction 1 as [|w1 w2 c _ IH E]; [done|]. intros. by eapply exec_store_ok; eauto. Qed.


End store_invariants.

Section body_invariants.
Context `{GoRuntime}.

Lemma fresh_body_None w : bodies w !! fresh (dom (bodies w)) = None.
Proof. apply not_elem_of_dom, is_fresh. Qed.

Lemma after_dispatch_bodies_closed w c req :
  bodies_closed w → bodies_closed (after_dispatch w c req).
Proof.
  intros Hok l b. unfold after_dispatch. cbn [bodies].
  destruct (RoundTrip (wire w) c req); [|apply Hok|];
    (destruct (decide (l = fresh (dom (bodies w)))) as [->|Hne];
     [rewrite lookup_insert_eq; by intros [= <-]
     | rewrite lookup_insert_ne by done; apply Hok]).
Qed.

Lemma sent_bodies_closed w w' tm :
  bodies_closed w → sent_under_base w w' tm → bodies_closed w'.
Proof.
  intros Hok [->|(v & c & cl & req & _ & _ & _ & -> & _)]; [done|].
  by apply after_dispatch_bodies_closed.
Qed.

Lemma exec_bodies_closed c w w' :
  exec c w = Some ((), w') → bodies_closed w → bodies_closed w'.
Proof.
  destruct c; unfold exec, mbind, M_bind;
    match goal with |- context [match ?op w with _ => _ end] =>
      destruct (op w) as [[a w1]|] eqn:E; [|done] end;
    intros [= <-] Hok.
  - revert E. rewrite NewTFClient_run. by intros [= _ <-].
  - by apply UploadsClient_cases in E as (v & _ & _ & ->).
  - eapply sent_bodies_closed; [done | by eapply CreateProviderVersion_sent].
  - eapply sent_bodies_closed; [done | by eapply CreateProviderVersionPlatform_sent].
  - eapply sent_bodies_closed; [done | by eapply UploadFile_sent].
Qed.

Lemma later_bodies_closed w w' : later w w' → bodies_closed w → bodies_closed w'.
Proof.
  induction 1 as [|w1 w2 c _ IH E]; [done|]. intros. by eapply exec_bodies_closed; eauto.
Qed.

End body_invariants.

(** ** Construction, derivation and request building *)

Lemma string_last_snoc s c : string_last (s +:+ String c "") = Some c.
Proof.
  induction s as [|a s IH]; [done|].
  rewrite string_app_cons. cbn [string_last]. rewrite IH.
  by destruct (s +:+ String c "") eqn:E; [destruct s|].
Qed.

Section construction_and_requests.
Context `{GoRuntime}.

Lemma run_calls_later cs : ∀ w w', run_calls cs w = Some w' → later w w'.
Proof.
  induction cs as [|c cs IH]; intros w w'; cbn [run_calls].
  - intros [= <-]. apply later_now.
  - destruct (exec c w) as [[[] w1]|] eqn:E; [|done]. intros Hrest.
    assert (Hchain : ∀ a b, later a b → ∀ z, later z a → later z b).
    { induction 1 as [|b1 b2 c' _ IHl E']; [done|]. intros z Hz.
      eapply later_call; [by apply IHl | exact E']. }
    eapply Hchain; [apply IH, Hrest|].
    eapply later_call; [apply later_now | exact E].
Qed.


(** X2.  The base address of a new client.  The configured address is
    the base address between two runs of slashes, so nothing but outer
    slashes is removed; the base address neither begins nor ends with a
    slash, trimming it again changes nothing, and an address made of
    slashes only gives the empty base address. *)
Theorem base_address_outer_slashes cfg w :
  ∃ tc w' v n k,
    NewTFClient cfg w = Some (Ok tc, w') ∧
    middlewares w' !! m tc = Some v ∧
    TFAddress cfg = string_repeat "/" n +:+ addr v +:+ string_repeat "/" k ∧
    string_head (addr v) ≠ Some "/"%char ∧
    string_last (addr v) ≠ Some "/"%char ∧
    strings.Trim (addr v) "/" = addr v ∧
    (string_forallb (λ c, bool_decide (c = "/"%char)) (TFAddress cfg) = true →
     addr v = "").
Proof.
  rewrite NewTFClient_run.
  destruct (Trim_decomp (TFAddress cfg) "/") as (n & k & E & Hh & Hl).
  eexists _, _, _, n, k. split; [reflexivity|]. simpl.
  split; [apply lookup_insert_eq|]. simpl.
  split; [exact E|]. split; [exact Hh|]. split; [exact Hl|].
  split; [by apply Trim_id|].
  intros Hall. rewrite E, !string_forallb_app in Hall.
  apply andb_prop in Hall as [_ [Ha _]%andb_prop].
  destruct (strings.Trim (TFAddress cfg) "/") as [|a t]; [done|].
  cbn [string_forallb] in Ha. apply andb_prop in Ha as [Ha%bool_decide_eq_true _].
  subst a. by destruct Hh.
Qed.

(** X3.  A query is a suffix of the route.  With at least one key in the
    query, [buildRequest] hands [http.NewRequestWithContext] the base
    address, a slash, the route, a question mark and the encoded query;
    that is the very result of the call with the question mark and the
    encoded query appended to the route and no query.  The encoded query
    holds only letters, digits and the bytes - _ . ~ % + = and the
    ampersand, so no byte of a key or value can end the query or start a
    fragment. *)
Theorem buildRequest_query_extends_route w tm v ctx method route query b rd :
  middlewares w !! tm = Some v → payload b = Done rd → size query ≠ 0%nat →
  buildRequest tm ctx method route query b w =
    Some (NewRequestWithContext ctx method
            (addr v +:+ "/" +:+ route +:+ "?" +:+ url.Encode query) rd, w) ∧
  buildRequest tm ctx method (route +:+ "?" +:+ url.Encode query) ∅ b w =
    buildRequest tm ctx method route query b w ∧
  string_forallb query_byte (url.Encode query) = true.
Proof.
  intros Hv Hp Hq. rewrite !(buildRequest_built _ _ _ _ _ _ _ _ Hv).
  unfold built. rewrite Hp, target_no_query. unfold target.
  rewrite decide_False by done.
  split; [done|]. split; [done|]. apply Encode_query_bytes.
Qed.

(** X4.  Keys without values leave a bare question mark.  The test of
    [buildRequest] is on the number of keys, not on the encoded text: when
    the query has keys and none of them has a value, the encoded query is
    empty and the request is built for the base address, a slash, the route
    and a question mark with nothing after it. *)
Theorem buildRequest_keys_without_values w tm v i method route query b rd :
  middlewares w !! tm = Some v → payload b = Done rd →
  size query ≠ 0%nat → (∀ k vs, query !! k = Some vs → vs = []) →
  http.validMethod (effective_method method) = true →
  url_Parse_error (addr v +:+ "/" +:+ route +:+ "?") = None →
  buildRequest tm (Some i) method route query b w =
    Some (Ok (http.mkRequest (Some i) (effective_method method)
                (addr v +:+ "/" +:+ route +:+ "?") ∅ rd), w).
Proof.
  intros Hv Hp Hq Hempty Hm Hu. rewrite (buildRequest_built _ _ _ _ _ _ _ _ Hv).
  unfold built, target. rewrite Hp, decide_False by done.
  rewrite (Encode_no_values _ Hempty).
  change ("?" +:+ "") with "?". by rewrite (NewRequest_ok _ _ _ _ Hm Hu).
Qed.

(** X5.  The uploads client builds the requests the client it was derived
    from builds.  For every context, method, route, query and body,
    [buildRequest] on the middleware of the uploads client returns what it
    returns on the middleware of the original client, before and after the
    derivation: the copy has the same base address, and [buildRequest]
    looks at nothing else. *)
Theorem uploads_client_builds_same_requests w tc v :
  middlewares w !! m tc = Some v →
  ∃ u w',
    UploadsClient tc w = Some (u, w') ∧
    ∀ ctx method route query b,
      buildRequest (um u) ctx method route query b w' =
        Some (built v ctx method route query b, w') ∧
      buildRequest (m tc) ctx method route query b w' =
        Some (built v ctx method route query b, w') ∧
      buildRequest (m tc) ctx method route query b w =
        Some (built v ctx method route query b, w).
Proof.
  intros Hv. rewrite (UploadsClient_run _ _ _ Hv). eexists _, _.
  split; [reflexivity|]. intros ctx method route query b.
  assert (Hne : fresh (dom (middlewares w)) ≠ m tc).
  { intros E. rewrite <- E, fresh_middleware_None in Hv. discriminate. }
  split; [|split].
  - erewrite buildRequest_built by (simpl; apply lookup_insert_eq). done.
  - erewrite buildRequest_built
      by (simpl; rewrite lookup_insert_ne by done; exact Hv). done.
  - by rewrite (buildRequest_built _ _ _ _ _ _ _ _ Hv).
Qed.

(** X6.  The order in which [buildRequest] fails.  A value that cannot be
    marshalled gives the marshalling error before the middleware is looked
    at, whatever the middleware, the method, the context and the route are.
    Once the body is settled a middleware that is not there makes the call
    panic; otherwise the outcome is that of [http.NewRequestWithContext]:
    an invalid method is reported first (the empty method standing for
    GET), then a nil context, then a URL that does not parse, and when all
    three are in order the request carries the context, the method, the
    URL and the body, and no header.  The store is never changed. *)
Theorem buildRequest_failure_order w tm ctx method route query :
  (∀ x cause, json_Marshal x = Failed cause →
     buildRequest tm ctx method route query (bodyOther x) w =
       Some (Err (MarshalError cause), w)) ∧
  (∀ b rd, payload b = Done rd → middlewares w !! tm = None →
     buildRequest tm ctx method route query b w = None) ∧
  (∀ b rd v, payload b = Done rd → middlewares w !! tm = Some v →
     (http.validMethod (effective_method method) = false →
      buildRequest tm ctx method route query b w =
        Some (Err (RequestError (http.InvalidMethod (effective_method method))), w)) ∧
     (http.validMethod (effective_method method) = true → ctx = None →
      buildRequest tm ctx method route query b w =
        Some (Err (RequestError http.NilContext), w)) ∧
     (∀ i cause, http.validMethod (effective_method method) = true → ctx = Some i →
        url_Parse_error (target (addr v) route query) = Some cause →
        buildRequest tm ctx method route query b w =
          Some (Err (RequestError (http.ParseError cause)), w)) ∧
     (∀ i, http.validMethod (effective_method method) = true → ctx = Some i →
        url_Parse_error (target (addr v) route query) = None →
        buildRequest tm ctx method route query b w =
          Some (Ok (http.mkRequest (Some i) (effective_method method)
                      (target (addr v) route query) ∅ rd), w))).
Proof.
  split; [|split].
  - intros x cause Hx. rewrite buildRequest_cases. unfold payload. by rewrite Hx.
  - intros b rd Hp Hv. by rewrite buildRequest_cases, Hp, Hv.
  - intros b rd v Hp Hv. rewrite buildRequest_cases, Hp, Hv.
    split; [|split; [|split]].
    + intros Hm. unfold NewRequestWithContext. fold (effective_method method).
      by rewrite Hm.
    + intros Hm ->. by rewrite (NewRequest_nil_context _ _ _ Hm).
    + intros i cause Hm -> Hu. by rewrite (NewRequest_parse_error _ _ _ _ _ Hm Hu).
    + intros i Hm -> Hu. by rewrite (NewRequest_ok _ _ _ _ Hm Hu).
Qed.

(** X7.  [copy] is a shallow copy with the client replaced.  The copy is a
    new object holding the address and the token of the original and the
    client given, whatever it is; the original and every other object are
    untouched.  Given nil for the client, [copy] still succeeds, and it is
    [do] on the copy that panics; given a client of the store, [do] on the
    copy sends through that client. *)
Theorem copy_is_shallow w tm v hc' :
  middlewares w !! tm = Some v →
  ∃ tm2 w',
    copy tm hc' w = Some (tm2, w') ∧
    middlewares w !! tm2 = None ∧
    middlewares w' !! tm2 = Some (mkMiddleware (addr v) (bearerToken v) hc') ∧
    middlewares w' !! tm = Some v ∧
    (∀ l, l ≠ tm2 → middlewares w' !! l = middlewares w !! l) ∧
    clients w' = clients w ∧ bodies w' = bodies w ∧ wire w' = wire w ∧
    (hc' = None → ∀ r, do tm2 r w' = None) ∧
    (∀ c cl r, hc' = Some c → clients w !! c = Some cl →
       ∃ res w'', do tm2 r w' = Some (res, w'') ∧ wire w'' = (c, r) :: wire w').
Proof.
  intros Hv. rewrite (copy_run _ _ _ _ Hv).
  assert (Hne : fresh (dom (middlewares w)) ≠ tm).
  { intros E. rewrite <- E, fresh_middleware_None in Hv. discriminate. }
  eexists _, _. split; [reflexivity|]. simpl.
  split; [apply fresh_middleware_None|]. split; [apply lookup_insert_eq|].
  split; [by rewrite lookup_insert_ne|].
  split; [intros l Hl; by rewrite lookup_insert_ne|].
  do 3 (split; [done|]). split.
  - intros -> r. eapply do_panics; [simpl; apply lookup_insert_eq | by left].
  - intros c cl r -> Hcl.
    erewrite do_run; [| simpl; apply lookup_insert_eq | done | exact Hcl].
    rewrite (Client_Do_run _ _ cl); [|exact Hcl].
    destruct (RoundTrip _ _ _); by eexists _, _.
Qed.

(** X8.  Each call of [UploadsClient] gives a client of its own.  Two
    calls on one handle return two middlewares, different from one another
    and from the original, each with a new HTTP client of the default
    configuration, different from one another and from the original's; both
    hold the address and the token of the original, which is unchanged
    after both calls. *)
Theorem UploadsClient_twice w tc v c cl :
  middlewares w !! m tc = Some v → hc v = Some c → clients w !! c = Some cl →
  ∃ u1 w1 u2 w2 c1 c2,
    UploadsClient tc w = Some (u1, w1) ∧
    UploadsClient tc w1 = Some (u2, w2) ∧
    um u1 ≠ um u2 ∧ um u1 ≠ m tc ∧ um u2 ≠ m tc ∧
    c1 ≠ c2 ∧ c1 ≠ c ∧ c2 ≠ c ∧
    middlewares w2 !! um u1 = Some (mkMiddleware (addr v) (bearerToken v) (Some c1)) ∧
    middlewares w2 !! um u2 = Some (mkMiddleware (addr v) (bearerToken v) (Some c2)) ∧
    middlewares w2 !! m tc = Some v ∧
    clients w2 !! c1 = Some cleanhttp.DefaultClientValue ∧
    clients w2 !! c2 = Some cleanhttp.DefaultClientValue ∧
    clients w2 !! c = Some cl.
Proof.
  intros Hv Hc Hcl. rewrite (UploadsClient_run _ _ _ Hv).
  set (l1 := fresh (dom (middlewares w))). set (k1 := fresh (dom (clients w))).
  set (w1 := mkWorld (<[k1 := cleanhttp.DefaultClientValue]> (clients w))
               (<[l1 := set_hc v (Some k1)]> (middlewares w)) (bodies w) (wire w)).
  assert (Hl1 : l1 ≠ m tc).
  { intros E. unfold l1 in E. rewrite <- E, fresh_middleware_None in Hv. discriminate. }
  assert (Hk1 : k1 ≠ c).
  { intros E. unfold k1 in E. rewrite <- E, fresh_client_None in Hcl. discriminate. }
  assert (Hv1 : middlewares w1 !! m tc = Some v).
  { simpl. by rewrite lookup_insert_ne. }
  pose proof (UploadsClient_run _ _ _ Hv1) as Hrun2.
  set (l2 := fresh (dom (middlewares w1))) in *.
  set (k2 := fresh (dom (clients w1))) in *.
  assert (Hl2 : middlewares w1 !! l2 = None) by apply fresh_middleware_None.
  assert (Hk2 : clients w1 !! k2 = None) by apply fresh_client_None.
  assert (Hl21 : l2 ≠ l1).
  { intros E. rewrite E in Hl2. simpl in Hl2. by rewrite lookup_insert_eq in Hl2. }
  assert (Hl2m : l2 ≠ m tc).
  { intros E. rewrite E, Hv1 in Hl2. discriminate. }
  assert (Hk21 : k2 ≠ k1).
  { intros E. rewrite E in Hk2. simpl in Hk2. by rewrite lookup_insert_eq in Hk2. }
  assert (Hk2c : k2 ≠ c).
  { intros E. rewrite E in Hk2. simpl in Hk2.
    rewrite lookup_insert_ne, Hcl in Hk2 by done. discriminate. }
  exists (mkTFUploadsClient l1), w1, (mkTFUploadsClient l2). eexists. exists k1, k2.
  split; [reflexivity|]. split; [exact Hrun2|]. simpl.
  split; [done|]. split; [done|]. split; [done|].
  split; [done|]. split; [done|]. split; [done|].
  split; [by rewrite lookup_insert_ne, lookup_insert_eq|].
  split; [by rewrite lookup_insert_eq|].
  split; [by rewrite !lookup_insert_ne|].
  split; [by rewrite lookup_insert_ne, lookup_insert_eq|].
  split; [by rewrite lookup_insert_eq|].
  by rewrite !lookup_insert_ne.
Qed.

(** X9.  Requests go out through the HTTP client of the middleware they
    are sent on.  After the uploads client is derived, [do] on its
    middleware puts the request on the wire under the new HTTP client, and
    [do] on the middleware of the provider client, which is the very
    middleware of the original handle, puts it there under the original
    one; both return. *)
Theorem derived_clients_dispatch_apart w tc v c cl :
  middlewares w !! m tc = Some v → hc v = Some c → clients w !! c = Some cl →
  ∃ u w1 c',
    UploadsClient tc w = Some (u, w1) ∧ c' ≠ c ∧
    pm (ProviderClient tc) = m tc ∧
    ∀ req,
      (∃ r w2, do (um u) req w1 = Some (r, w2) ∧ wire w2 = (c', req) :: wire w1) ∧
      (∃ r w2, do (pm (ProviderClient tc)) req w1 = Some (r, w2) ∧
               wire w2 = (c, req) :: wire w1).
Proof.
  intros Hv Hc Hcl. rewrite (UploadsClient_run _ _ _ Hv).
  assert (Hl : fresh (dom (middlewares w)) ≠ m tc).
  { intros E. rewrite <- E, fresh_middleware_None in Hv. discriminate. }
  assert (Hk : fresh (dom (clients w)) ≠ c).
  { intros E. rewrite <- E, fresh_client_None in Hcl. discriminate. }
  eexists _, _, _. split; [reflexivity|]. split; [exact Hk|]. split; [done|].
  intros req. split.
  - erewrite do_run;
      [| simpl; apply lookup_insert_eq | reflexivity | simpl; apply lookup_insert_eq].
    erewrite Client_Do_run by (simpl; apply lookup_insert_eq).
    destruct (RoundTrip _ _ _); by eexists _, _.
  - erewrite do_run;
      [| simpl; rewrite lookup_insert_ne by done; exact Hv | exact Hc
       | simpl; rewrite lookup_insert_ne by done; exact Hcl].
    erewrite Client_Do_run by (simpl; rewrite lookup_insert_ne by done; exact Hcl).
    destruct (RoundTrip _ _ _); by eexists _, _.
Qed.

End construction_and_requests.

(** ** The operations *)

Section operations.
Context `{GoRuntime}.


(** X11.  On the stores the package builds, no operation panics.  In a
    store reached from the empty one by calls of the package, every
    middleware holds a client that is in the store, with the default
    configuration, and a base address without outer slashes; so every
    create operation and every upload on a handle of the store returns, for
    all arguments, and so does the derivation of an uploads client, which
    holds the same address and token and the next new client. *)
Theorem reachable_handles_never_panic w tm v :
  later emptyWorld w → middlewares w !! tm = Some v →
  (∃ c, hc v = Some c ∧ clients w !! c = Some cleanhttp.DefaultClientValue) ∧
  strings.Trim (addr v) "/" = addr v ∧
  (∀ ctx o r n p data,
     ∃ res w', CreateProviderVersion (mkTFProviderClient tm) ctx o r n p data w
               = Some (res, w')) ∧
  (∀ ctx o r n p pv data,
     ∃ res w', CreateProviderVersionPlatform (mkTFProviderClient tm) ctx o r n p pv data w
               = Some (res, w')) ∧
  (∀ ctx data, ∃ res w', UploadFile (mkTFUploadsClient tm) ctx data w = Some (res, w')) ∧
  (∃ u w', UploadsClient (mkTFClient tm) w = Some (u, w') ∧
           middlewares w' !! um u = Some (set_hc v (Some (fresh (dom (clients w)))))).
Proof.
  intros Hl Hv.
  destruct (later_store_ok _ _ Hl store_ok_empty _ _ Hv) as ((c & Hc & Hcl) & Hh & Hla).
  split; [by exists c|]. split; [by apply Trim_id|].
  split; [|split; [|split]].
  - intros. change tm with (pm (mkTFProviderClient tm)) in Hv.
    rewrite (CreateProviderVersion_run _ _ _ _ _ _ _ _ _ _ _ Hv Hc Hcl).
    destruct (built _ _ _ _ _ _); by eexists _, _.
  - intros. change tm with (pm (mkTFProviderClient tm)) in Hv.
    rewrite (CreateProviderVersionPlatform_run _ _ _ _ _ _ _ _ _ _ _ _ Hv Hc Hcl).
    destruct (built _ _ _ _ _ _); by eexists _, _.
  - intros. change tm with (um (mkTFUploadsClient tm)) in Hv.
    rewrite (UploadFile_run _ _ _ _ _ _ _ Hv Hc Hcl).
    destruct (built _ _ _ _ _ _); by eexists _, _.
  - change tm with (m (mkTFClient tm)) in Hv.
    rewrite (UploadsClient_run _ _ _ Hv). eexists _, _. split; [reflexivity|].
    simpl. apply lookup_insert_eq.
Qed.


(** X13.  No response body is left open.  In a store reached from the
    empty one by calls of the package, every response body received has
    been closed exactly once: by [handleResponse] (modelled from section
    4.3 of the spec) when the transport succeeded, by [http.Client.Do]
    itself when the redirect policy failed, and never by both. *)
Theorem reachable_bodies_closed_once w l b :
  later emptyWorld w → bodies w !! l = Some b → close_calls b = 1%nat.
Proof.
  intros Hl. apply (later_bodies_closed _ _ Hl). intros l' b' Hb.
  simpl in Hb. by rewrite lookup_empty in Hb.
Qed.

(** X14.  The value of the Content-Disposition header of an upload.  For
    every filename, the text formatted by [attachmentFilenameFmt] holds no
    control byte, so neither a carriage return nor a line feed of the
    filename reaches the header; it begins with [attachment; filename=],
    and the quoted name begins and ends with a double quote. *)
Theorem content_disposition_header_value filename :
  string_forallb printable (attachmentFilenameFmt filename) = true ∧
  String.prefix "attachment; filename=" (attachmentFilenameFmt filename) = true ∧
  string_head (strconv.Quote unicode_tables filename) = Some strconv.dquote ∧
  string_last (attachmentFilenameFmt filename) = Some strconv.dquote.
Proof.
  unfold attachmentFilenameFmt. split; [|split; [|split]].
  - rewrite string_forallb_app, Quote_printable. reflexivity.
  - apply string_prefix_app.
  - reflexivity.
  - unfold strconv.Quote. rewrite <- string_app_assoc.
    apply string_last_snoc.
Qed.

(** X15.  A handle whose middleware is not in the store: a nil pointer.
    [buildRequest] panics on it once the body is settled, and [do] panics
    on it.  A create operation returns the marshalling error when the data
    cannot be marshalled, since that is found before the middleware is
    dereferenced, and panics otherwise; an upload of a reader or of bytes
    panics. *)
Theorem absent_middleware_panics w tm :
  middlewares w !! tm = None →
  (∀ ctx method route query b rd, payload b = Done rd →
     buildRequest tm ctx method route query b w = None) ∧
  (∀ req, do tm req w = None) ∧
  (∀ ctx o r n p data,
     CreateProviderVersion (mkTFProviderClient tm) ctx o r n p data w =
       match json_Marshal data with
       | Failed cause => Some (Err (MarshalError cause), w)
       | Done _ => None
       end) ∧
  (∀ ctx o r n p pv data,
     CreateProviderVersionPlatform (mkTFProviderClient tm) ctx o r n p pv data w =
       match json_Marshal data with
       | Failed cause => Some (Err (MarshalError cause), w)
       | Done _ => None
       end) ∧
  (∀ ctx data,
     UploadFile (mkTFUploadsClient tm) ctx data w =
       match payload (File data) with
       | Failed cause => Some (Some (MarshalError cause), w)
       | Done _ => None
       end).
Proof.
  intros Hv. split; [|split; [|split; [|split]]].
  - intros ctx method route query b rd Hp. by rewrite buildRequest_cases, Hp, Hv.
  - intros req. by rewrite do_cases, Hv.
  - intros. unfold CreateProviderVersion. bind_step.
    rewrite buildRequest_cases. cbn [pm]. rewrite Hv. unfold payload.
    by destruct (json_Marshal data).
  - intros. unfold CreateProviderVersionPlatform. bind_step.
    rewrite buildRequest_cases. cbn [pm]. rewrite Hv. unfold payload.
    by destruct (json_Marshal data).
  - intros. unfold UploadFile. bind_step.
    rewrite buildRequest_cases. cbn [um]. rewrite Hv.
    by destruct (payload (File data)).
Qed.

End operations.

(** ** The properties at work *)

Lemma publish_reaches :
  ∃ w, run_calls (H:=Demo.rt) Scenario.publish emptyWorld = Some w ∧
       later (H:=Demo.rt) emptyWorld w.
Proof.
  eexists. split; [vm_compute; reflexivity|].
  apply (run_calls_later (H:=Demo.rt) Scenario.publish). vm_compute. reflexivity.
Qed.

(** [buildRequest_query_extends_route] in the concrete environment: one
    parameter gives ?page=2 after the route. *)
Lemma buildRequest_query_extends_route_witness :
  middlewares Demo.world !! 0%nat = Some Demo.middleware ∧
  size Scenario.page ≠ 0%nat ∧
  buildRequest (H:=Demo.rt) 0 (Some 0%nat) "GET" "api/v2/ping" Scenario.page bodyNil
    Demo.world =
    Some (Ok (http.mkRequest (Some 0%nat) "GET"
                "https://app.terraform.io/api/v2/ping?page=2" ∅ None), Demo.world) ∧
  buildRequest (H:=Demo.rt) 0 (Some 0%nat) "GET" "api/v2/ping?page=2" ∅ bodyNil
    Demo.world =
    buildRequest (H:=Demo.rt) 0 (Some 0%nat) "GET" "api/v2/ping" Scenario.page bodyNil
      Demo.world.
Proof.
  assert (Hq : size Scenario.page ≠ 0%nat) by (vm_compute; discriminate).
  split; [reflexivity|]. split; [exact Hq|].
  destruct (buildRequest_query_extends_route (H:=Demo.rt) Demo.world 0%nat Demo.middleware
              (Some 0%nat) "GET" "api/v2/ping" Scenario.page bodyNil None
              eq_refl eq_refl Hq) as (E1 & E2 & _).
  split; [rewrite E1; vm_compute; reflexivity | exact E2].
Defined.

(** [buildRequest_keys_without_values] in the concrete environment: a
    flag without values gives a GET that ends with the question mark. *)
Lemma buildRequest_keys_without_values_witness :
  middlewares Demo.world !! 0%nat = Some Demo.middleware ∧
  size Scenario.flag ≠ 0%nat ∧
  buildRequest (H:=Demo.rt) 0 (Some 0%nat) "" "api/v2/ping" Scenario.flag bodyNil
    Demo.world =
    Some (Ok (http.mkRequest (Some 0%nat) "GET"
                "https://app.terraform.io/api/v2/ping?" ∅ None), Demo.world).
Proof.
  assert (Hq : size Scenario.flag ≠ 0%nat) by (vm_compute; discriminate).
  split; [reflexivity|]. split; [exact Hq|].
  apply (buildRequest_keys_without_values (H:=Demo.rt) Demo.world 0%nat Demo.middleware
           0%nat "" "api/v2/ping" Scenario.flag bodyNil None eq_refl eq_refl Hq).
  - intros k vs. unfold Scenario.flag. intros [_ <-]%lookup_singleton_Some. reflexivity.
  - vm_compute. reflexivity.
  - vm_compute. reflexivity.
Defined.

(** [uploads_client_builds_same_requests] in the concrete environment. *)
Lemma uploads_client_builds_same_requests_witness :
  middlewares Demo.world !! 0%nat = Some Demo.middleware ∧
  ∃ u w',
    UploadsClient Demo.tc Demo.world = Some (u, w') ∧ um u = 1%nat ∧
    buildRequest (H:=Demo.rt) (um u) (Some 0%nat) "PUT" "x" ∅ (bodyBytes "PK") w' =
      Some (Ok (http.mkRequest (Some 0%nat) "PUT" "https://app.terraform.io/x" ∅
                  (Some "PK")), w') ∧
    buildRequest (H:=Demo.rt) 0 (Some 0%nat) "PUT" "x" ∅ (bodyBytes "PK") w' =
      Some (Ok (http.mkRequest (Some 0%nat) "PUT" "https://app.terraform.io/x" ∅
                  (Some "PK")), w').
Proof.
  split; [reflexivity|].
  destruct (uploads_client_builds_same_requests (H:=Demo.rt) Demo.world Demo.tc
              Demo.middleware eq_refl) as (u & w' & E & Hsame).
  destruct (Hsame (Some 0%nat) "PUT" "x" ∅ (bodyBytes "PK")) as (E1 & E2 & _).
  exists u, w'. split; [exact E|].
  split; [by injection E as <- _|].
  split; [rewrite E1 | change 0%nat with (m Demo.tc) at 1; rewrite E2]; reflexivity.
Defined.

(** [copy_is_shallow] in the concrete environment, with nil for the
    client. *)
Lemma copy_is_shallow_witness :
  middlewares Demo.world !! 0%nat = Some Demo.middleware ∧
  ∃ tm2 w',
    copy 0 None Demo.world = Some (tm2, w') ∧
    middlewares w' !! tm2 = Some (mkMiddleware "https://app.terraform.io" "s3cr3t" None) ∧
    middlewares w' !! 0%nat = Some Demo.middleware ∧
    do (H:=Demo.rt) tm2 Demo.put_request w' = None.
Proof.
  split; [reflexivity|].
  destruct (copy_is_shallow (H:=Demo.rt) Demo.world 0%nat Demo.middleware None eq_refl)
    as (tm2 & w' & E & _ & Hnew & Hold & _ & _ & _ & _ & Hnil & _).
  exists tm2, w'. split; [exact E|]. split; [exact Hnew|]. split; [exact Hold|].
  by apply Hnil.
Defined.

(** [UploadsClient_twice] in the concrete environment: the middlewares at
    1 and 2, with the clients at 1 and 2. *)
Lemma UploadsClient_twice_witness :
  middlewares Demo.world !! 0%nat = Some Demo.middleware ∧
  hc Demo.middleware = Some 0%nat ∧
  clients Demo.world !! 0%nat = Some cleanhttp.DefaultClientValue ∧
  ∃ u1 w1 u2 w2,
    UploadsClient Demo.tc Demo.world = Some (u1, w1) ∧
    UploadsClient Demo.tc w1 = Some (u2, w2) ∧
    um u1 = 1%nat ∧ um u2 = 2%nat ∧
    hc <$> middlewares w2 !! um u1 = Some (Some 1%nat) ∧
    hc <$> middlewares w2 !! um u2 = Some (Some 2%nat).
Proof.
  split; [reflexivity|]. split; [reflexivity|]. split; [reflexivity|].
  destruct (UploadsClient_twice Demo.world Demo.tc Demo.middleware 0%nat
              cleanhttp.DefaultClientValue eq_refl eq_refl eq_refl)
    as (u1 & w1 & u2 & w2 & c1 & c2 & E1 & E2 & _).
  exists u1, w1, u2, w2. split; [exact E1|]. split; [exact E2|].
  vm_compute in E1. injection E1 as <- <-.
  vm_compute in E2. injection E2 as <- <-.
  repeat split; vm_compute; reflexivity.
Defined.

(** [derived_clients_dispatch_apart] in the concrete environment. *)
Lemma derived_clients_dispatch_apart_witness :
  middlewares Demo.world !! 0%nat = Some Demo.middleware ∧
  hc Demo.middleware = Some 0%nat ∧
  clients Demo.world !! 0%nat = Some cleanhttp.DefaultClientValue ∧
  ∃ u w1,
    UploadsClient Demo.tc Demo.world = Some (u, w1) ∧
    (∃ r w2, do (H:=Demo.rt) (um u) Demo.put_request w1 = Some (r, w2) ∧
             wire w2 = [(1%nat, Demo.put_request)]) ∧
    (∃ r w2, do (H:=Demo.rt) (pm (ProviderClient Demo.tc)) Demo.put_request w1
             = Some (r, w2) ∧
             wire w2 = [(0%nat, Demo.put_request)]).
Proof.
  split; [reflexivity|]. split; [reflexivity|]. split; [reflexivity|].
  destruct (derived_clients_dispatch_apart (H:=Demo.rt) Demo.world Demo.tc Demo.middleware
              0%nat cleanhttp.DefaultClientValue eq_refl eq_refl eq_refl)
    as (u & w1 & c' & E & _ & _ & Hdo).
  destruct (Hdo Demo.put_request) as ((r1 & w2 & D1 & W1) & (r2 & w3 & D2 & W2)).
  exists u, w1. split; [exact E|].
  vm_compute in E. injection E as <- <-.
  split.
  - exists r1, w2. split; [exact D1|].
    vm_compute in D1. injection D1 as <- <-. vm_compute. reflexivity.
  - exists r2, w3. split; [exact D2|].
    vm_compute in D2. injection D2 as <- <-. vm_compute. reflexivity.
Defined.


(** [reachable_handles_never_panic] after the calls of
    [Scenario.publish]: an upload on the uploads client returns, here with
    a nil context. *)
Lemma reachable_handles_never_panic_witness :
  ∃ w v,
    run_calls (H:=Demo.rt) Scenario.publish emptyWorld = Some w ∧
    middlewares w !! 1%nat = Some v ∧
    hc v = Some 1%nat ∧
    ∃ res w', UploadFile (H:=Demo.rt) (mkTFUploadsClient 1) None Demo.upload w
              = Some (res, w').
Proof.
  eexists _, _. split; [vm_compute; reflexivity|].
  split; [vm_compute; reflexivity|]. split; [reflexivity|].
  eapply (reachable_handles_never_panic (H:=Demo.rt)).
  - apply (run_calls_later (H:=Demo.rt) Scenario.publish). vm_compute. reflexivity.
  - vm_compute. reflexivity.
Defined.


(** [reachable_bodies_closed_once] after the calls of
    [Scenario.publish], for the body received last. *)
Lemma reachable_bodies_closed_once_witness :
  ∃ w b,
    run_calls (H:=Demo.rt) Scenario.publish emptyWorld = Some w ∧
    bodies w !! 1%nat = Some b ∧ close_calls b = 1%nat.
Proof.
  eexists _, _. split; [vm_compute; reflexivity|].
  split; [vm_compute; reflexivity|].
  eapply (reachable_bodies_closed_once (H:=Demo.rt) _ 1%nat).
  - apply (run_calls_later (H:=Demo.rt) Scenario.publish). vm_compute. reflexivity.
  - vm_compute. reflexivity.
Defined.

(** [absent_middleware_panics] in the empty store. *)
Lemma absent_middleware_panics_witness :
  middlewares emptyWorld !! 0%nat = None ∧
  CreateProviderVersion (H:=Demo.rt) (mkTFProviderClient 0) (Some 0%nat)
    "acme" "priv" "myorg" "tool" (Demo.record "{}") emptyWorld = None ∧
  CreateProviderVersion (H:=Demo.rt) (mkTFProviderClient 0) (Some 0%nat)
    "acme" "priv" "myorg" "tool" Demo.channel emptyWorld =
    Some (Err (MarshalError "json: unsupported type: chan int"), emptyWorld) ∧
  UploadFile (H:=Demo.rt) (mkTFUploadsClient 0) (Some 0%nat) Demo.upload emptyWorld = None.
Proof.
  split; [reflexivity|].
  destruct (absent_middleware_panics (H:=Demo.rt) emptyWorld 0%nat eq_refl)
    as (_ & _ & Hc & _ & Hu).
  split; [exact (Hc (Some 0%nat) "acme" "priv" "myorg" "tool" (Demo.record "{}"))|].
  split; [exact (Hc (Some 0%nat) "acme" "priv" "myorg" "tool" Demo.channel)|].
  exact (Hu (Some 0%nat) Demo.upload).
Defined.
